(** * ai-call-center: call/session orchestration, verified against its spec

    A shallow embedding of the Go sources

    - [libs/store/store.go]                       (package [store])
    - [libs/livekit/token.go]                     (package [livekit])
    - [backend/internal/agentmgr/agentmgr.go]     (package [agentmgr])
    - the [livekitclient] package ([RoomClient])
    - [backend/cmd/server/main.go]                (the [/webhook/livekit] handler)

    Go strings are [string] (sequences of 8-bit characters), [[]byte] is
    [list byte], Go maps are [gmap], a Go [error] is its message, and a
    [(value, error)] return is a [result].  Everything the program gets from
    outside (random bytes, the clock, driver faults, the outcome of a network
    connect, the JWT and JSON libraries) is read from the [World]; the three
    pipeline capabilities are functions, which answer the same input the
    same way.

    The operations of the manager, the store and the handler run one at a
    time: the manager's mutex and the interleaving of two operations are not
    modelled.  The goroutine that [SpawnAgent] starts is a task of the world
    that advances by steps of its own ([agent_connect], [agent_done]); the
    goroutines that read the websocket and the audio track of a room client
    are left out, a flushed audio window being the operation
    [processAudioChunk]. *)

From Stdlib Require Import ZArith List String Ascii Bool Lia SpecFloat.
From Stdlib.Strings Require Import Byte.
From stdpp Require Import base option gmap strings list pretty.

Local Open Scope Z_scope.
Local Open Scope string_scope.
Local Open Scope list_scope.

(** ** Go values *)

Definition error := string.

Inductive result (A : Type) : Type :=
  | Ok (a : A)
  | Err (e : error).
Arguments Ok {A} a.
Arguments Err {A} e.

Definition is_ok {A} (r : result A) : bool :=
  match r with Ok _ => true | Err _ => false end.

(** [[]byte(s)]. *)
Definition bytes_of (s : string) : list byte := list_byte_of_string s.

#[global] Instance byte_eq_dec : EqDecision byte := Byte.byte_eq_dec.

Definition byte_to_Z (b : byte) : Z := Z.of_N (Byte.to_N b).
Definition byte_of_Z (z : Z) : byte :=
  default Byte.x00 (Byte.of_N (Z.to_N (z mod 256))).

(** A Go [float32]: a binary32 value ([valid_binary 24 128]) of [SpecFloat],
    whose comparison is the IEEE-754 one on such values. *)
Definition float32 := spec_float.

(** The constant [0.5] as a binary32 value: mantissa [2^23], exponent [-24]. *)
Definition half32 : float32 := S754_finite false 8388608 (-24).

(** [confidence < 0.5]; false when the confidence is NaN. *)
Definition lt_half (confidence : float32) : bool := SFltb confidence half32.

(** ** [encoding/hex] and [encoding/base64] *)

Module hex.
Definition hextable : list ascii := list_ascii_of_string "0123456789abcdef".
Definition digit (n : Z) : ascii := nth (Z.to_nat n) hextable "0"%char.

Fixpoint EncodeToString (src : list byte) : string :=
  match src with
  | [] => ""
  | b :: rest =>
      String (digit (Z.shiftr (byte_to_Z b) 4))
        (String (digit (Z.land (byte_to_Z b) 15)) (EncodeToString rest))
  end.
End hex.

Module base64.
Definition encodeStd : list ascii :=
  list_ascii_of_string
    "ABCDEFGHIJKLMNOPQRSTUVWXYZabcdefghijklmnopqrstuvwxyz0123456789+/".
Definition sym (n : Z) : ascii :=
  nth (Z.to_nat (Z.land n 63)) encodeStd "A"%char.

(** [base64.StdEncoding.EncodeToString]: 3 bytes make 4 symbols, the
    remainder is padded with [=]. *)
Fixpoint EncodeToString (src : list byte) : string :=
  match src with
  | [] => ""
  | [a] =>
      let v := Z.shiftl (byte_to_Z a) 16 in
      String (sym (Z.shiftr v 18)) (String (sym (Z.shiftr v 12)) "==")
  | [a; b] =>
      let v := Z.lor (Z.shiftl (byte_to_Z a) 16) (Z.shiftl (byte_to_Z b) 8) in
      String (sym (Z.shiftr v 18)) (String (sym (Z.shiftr v 12))
        (String (sym (Z.shiftr v 6)) "="))
  | a :: b :: c :: rest =>
      let v := Z.lor (Z.lor (Z.shiftl (byte_to_Z a) 16)
                            (Z.shiftl (byte_to_Z b) 8)) (byte_to_Z c) in
      String (sym (Z.shiftr v 18)) (String (sym (Z.shiftr v 12))
        (String (sym (Z.shiftr v 6)) (String (sym v) (EncodeToString rest))))
  end.
End base64.

(** ** [crypto/sha256] and [crypto/hmac] (FIPS 180-4, RFC 2104) *)

Module sha256.
Definition w32 (x : Z) : Z := x mod 4294967296.
Definition rotr (n x : Z) : Z :=
  w32 (Z.lor (Z.shiftr x n) (Z.shiftl x (32 - n))).
Definition not32 (x : Z) : Z := w32 (Z.lnot x).

Definition Ch (x y z : Z) := Z.lxor (Z.land x y) (Z.land (not32 x) z).
Definition Maj (x y z : Z) :=
  Z.lxor (Z.lxor (Z.land x y) (Z.land x z)) (Z.land y z).
Definition Sig0 x := Z.lxor (Z.lxor (rotr 2 x) (rotr 13 x)) (rotr 22 x).
Definition Sig1 x := Z.lxor (Z.lxor (rotr 6 x) (rotr 11 x)) (rotr 25 x).
Definition sig0 x := Z.lxor (Z.lxor (rotr 7 x) (rotr 18 x)) (Z.shiftr x 3).
Definition sig1 x := Z.lxor (Z.lxor (rotr 17 x) (rotr 19 x)) (Z.shiftr x 10).

(** The constants of FIPS 180-4, from their definition: the first 32 bits
    of the fractional parts of the cube roots (for [K]) and of the square
    roots (for [H0]) of the first primes. *)
Definition is_prime (n : Z) : bool :=
  (1 <? n)%Z &&
  forallb (fun d => negb (n mod Z.of_nat d =? 0)%Z) (seq 2 (Z.to_nat n - 2)).

Definition primes : list Z :=
  Eval vm_compute in List.filter is_prime (map Z.of_nat (seq 2 310)).

(** The integer cube root of [x], found bit by bit from bit [n - 1] down. *)
Fixpoint cube_root (n : nat) (x r : Z) : Z :=
  match n with
  | O => r
  | S n' =>
      let c := r + 2 ^ Z.of_nat n' in
      cube_root n' x (if (c * c * c <=? x)%Z then c else r)
  end.

Definition K : list Z :=
  Eval vm_compute in map (fun p => w32 (cube_root 36 (p * 2 ^ 96) 0)) primes.

Definition H0 : list Z :=
  Eval vm_compute in map (fun p => w32 (Z.sqrt (p * 2 ^ 64))) (firstn 8 primes).

(** Big-endian words of a block. *)
Fixpoint words (bs : list Z) : list Z :=
  match bs with
  | a :: b :: c :: d :: rest =>
      (Z.lor (Z.lor (Z.shiftl a 24) (Z.shiftl b 16)) (Z.lor (Z.shiftl c 8) d))
        :: words rest
  | _ => []
  end.

(** The message schedule: [n] further words after the ones in [w]. *)
Fixpoint schedule (n : nat) (w : list Z) : list Z :=
  match n with
  | O => w
  | S n' =>
      let t := length w in
      let g (i : nat) := nth (t - i) w 0 in
      schedule n' (w ++ [w32 (sig1 (g 2%nat) + g 7%nat + sig0 (g 15%nat) + g 16%nat)])
  end.

Definition round (st : list Z) (kw : Z * Z) : list Z :=
  match st with
  | [a; b; c; d; e; f; g; h] =>
      let t1 := w32 (h + Sig1 e + Ch e f g + fst kw + snd kw) in
      let t2 := w32 (Sig0 a + Maj a b c) in
      [w32 (t1 + t2); a; b; c; w32 (d + t1); e; f; g]
  | _ => st
  end.

Definition block (h : list Z) (bs : list Z) : list Z :=
  let w := schedule 48 (words bs) in
  let st := fold_left round (combine K w) h in
  map (fun p => w32 (fst p + snd p)) (combine h st).

(** Blocks of 64 bytes, folded left to right. *)
Fixpoint blocks (fuel : nat) (h : list Z) (bs : list Z) : list Z :=
  match fuel with
  | O => h
  | S fuel' =>
      match bs with
      | [] => h
      | _ => blocks fuel' (block h (firstn 64 bs)) (skipn 64 bs)
      end
  end.

Definition be_bytes (n : nat) (x : Z) : list Z :=
  map (fun i => Z.land (Z.shiftr x (8 * Z.of_nat (n - 1 - i))) 255) (seq 0 n).

Definition pad (msg : list Z) : list Z :=
  let len := Z.of_nat (length msg) in
  let zeros := Z.to_nat ((55 - len) mod 64) in
  msg ++ [128] ++ repeat 0 zeros ++ be_bytes 8 (8 * len).

Definition word_bytes (w : Z) : list byte := map byte_of_Z (be_bytes 4 w).

Definition Sum256 (data : list byte) : list byte :=
  let m := pad (map byte_to_Z data) in
  match blocks (length m) H0 m with
  | [a; b; c; d; e; f; g; h] =>
      word_bytes a ++ word_bytes b ++ word_bytes c ++ word_bytes d ++
      word_bytes e ++ word_bytes f ++ word_bytes g ++ word_bytes h
  | _ => repeat Byte.x00 32
  end.
End sha256.

Module hmac.
Definition xor_pad (p : Z) (key : list byte) : list byte :=
  map (fun b => byte_of_Z (Z.lxor (byte_to_Z b) p)) key.

(** [hmac.New(sha256.New, key)], [Write(msg)], [Sum(nil)]. *)
Definition Sum (key msg : list byte) : list byte :=
  let k := if (64 <? length key)%nat then sha256.Sum256 key else key in
  let k := k ++ repeat Byte.x00 (64 - length k) in
  sha256.Sum256 (xor_pad 92 k ++ sha256.Sum256 (xor_pad 54 k ++ msg)).

(** [hmac.Equal] answers whether the two byte strings are equal (in
    constant time, which is not modelled). *)
Definition Equal (a b : list byte) : bool := bool_decide (a = b).
End hmac.

(** ** Capabilities ([libs/interfaces]) *)

Record STT := { Recognize : list byte -> result (string * float32) }.
Record LLM := { Generate : string -> result string }.
Record TTS := { Speak : string -> result (list byte) }.

(** The published track, [*webrtc.TrackLocalStaticSample]. *)
Record Track := { WriteSample : list byte -> result unit }.

(** ** The persisted store ([libs/store]) *)

(** [calls(id PRIMARY KEY, caller_id, status, created_at)]. *)
Record call_row := CallRow {
  call_caller_id : string;
  call_status : string;
  call_created_at : Z }.

(** [sessions(id PRIMARY KEY, call_id, user_id, type, status, created_at,
    token)]; [token] is NULL until it is set. *)
Record session_row := SessionRow {
  sess_call_id : string;
  sess_user_id : string;
  sess_type : string;
  sess_status : string;
  sess_created_at : Z;
  sess_token : option string }.

Record DB := MkDB {
  calls : gmap string call_row;
  sessions : gmap string session_row }.

(** The statements the program sends to the driver. *)
Inductive stmt :=
  | InsertCall (id caller_id status : string) (created_at : Z)
  | InsertSession (id call_id user_id type status : string) (created_at : Z)
  | UpdateSessionStatusQ (status id : string)
  | UpdateSessionTokenQ (token id : string)
  | UpdateCallStatusQ (status id : string).

Definition set_status (status : string) (r : session_row) : session_row :=
  SessionRow (sess_call_id r) (sess_user_id r) (sess_type r) status
             (sess_created_at r) (sess_token r).
Definition set_token (token : string) (r : session_row) : session_row :=
  SessionRow (sess_call_id r) (sess_user_id r) (sess_type r) (sess_status r)
             (sess_created_at r) (Some token).
Definition set_call_status (status : string) (r : call_row) : call_row :=
  CallRow (call_caller_id r) status (call_created_at r).

(** What a statement does to the tables, with the number of rows affected.
    An INSERT of an existing primary key is refused. *)
Definition exec_stmt (q : stmt) (d : DB) : result (DB * Z) :=
  match q with
  | InsertCall id caller status now =>
      match calls d !! id with
      | Some _ => Err "constraint failed: UNIQUE constraint failed: calls.id"
      | None => Ok (MkDB (<[id := CallRow caller status now]> (calls d)) (sessions d), 1)
      end
  | InsertSession id call user typ status now =>
      match sessions d !! id with
      | Some _ => Err "constraint failed: UNIQUE constraint failed: sessions.id"
      | None =>
          Ok (MkDB (calls d)
                (<[id := SessionRow call user typ status now None]> (sessions d)), 1)
      end
  | UpdateSessionStatusQ status id =>
      match sessions d !! id with
      | Some r => Ok (MkDB (calls d) (<[id := set_status status r]> (sessions d)), 1)
      | None => Ok (d, 0)
      end
  | UpdateSessionTokenQ token id =>
      match sessions d !! id with
      | Some r => Ok (MkDB (calls d) (<[id := set_token token r]> (sessions d)), 1)
      | None => Ok (d, 0)
      end
  | UpdateCallStatusQ status id =>
      match calls d !! id with
      | Some r => Ok (MkDB (<[id := set_call_status status r]> (calls d)) (sessions d), 1)
      | None => Ok (d, 0)
      end
  end.

(** ** The room client ([livekitclient.RoomClient]) *)

Record RoomClient := MkRoomClient {
  rc_url : string;
  rc_token : string;
  rc_roomName : string;
  rc_identity : string;
  rc_conn : bool;                (* conn != nil *)
  rc_pc : bool;                  (* pc != nil *)
  rc_stt : option STT;
  rc_llm : option LLM;
  rc_tts : option TTS;
  rc_done : bool;                (* rc.ctx is cancelled *)
  rc_audioTrack : option Track }.

(** ** Configuration ([libs/config]) *)

Record Config := MkConfig {
  VendorSettings : gmap string (gmap string string) }.

(** ** JSON values and JWT claims (the libraries' data) *)

#[warnings="-register-all"]
Inductive json :=
  | JNull
  | JBool (b : bool)
  | JNumber (f : spec_float)
  | JString (s : string)
  | JArray (l : list json)
  | JObject (m : gmap string json).

Record claims := MkClaims {
  cl_jti : string; cl_iss : string; cl_nbf : Z; cl_exp : Z;
  cl_sub : string; cl_name : string; cl_video_room : string }.

(** ** The world *)

(** What the program does that can be seen from outside. *)
Inductive event :=
  | EvLog (format : string)                       (* log.Printf, arguments dropped *)
  | EvRecognize (audio : list byte)               (* stt.Recognize *)
  | EvGenerate (prompt : string)                  (* llm.Generate *)
  | EvSpeak (text : string)                       (* tts.Speak *)
  | EvMkdirAll (dir : string)                     (* os.MkdirAll *)
  | EvWriteFile (dir name : string) (data : list byte)
                                     (* os.WriteFile(filepath.Join(dir, name), data) *)
  | EvWriteSample (data : list byte)              (* audioTrack.WriteSample *)
  | EvPeerClose (client : nat)
  | EvConnClose (client : nat).

(** How far [RoomClient.Connect] gets. *)
Inductive connect_outcome :=
  | DialFails | PeerConnectionFails | NewTrackFails
  | AddTrackFails (track : Track)
  | ConnectSucceeds (track : Track).

(** The part of the world the program only reads.  The first four fields
    answer the request made at a given tick. *)
Record Env := MkEnv {
  env_rand : nat -> option (nat -> byte);     (* crypto/rand.Read: the bytes, or a failure *)
  env_fault : nat -> bool;                    (* the driver fails this request *)
  env_clock : nat -> Z;                       (* time.Now().Unix() *)
  env_connect : nat -> connect_outcome;       (* how far this Connect gets *)
  env_sign : claims -> list byte -> result string;   (* jwt HS256 SignedString *)
  env_json : list byte -> result json }.      (* the encoding/json parser *)

(** The fields of [agentmgr.AgentManager]; the store it points to is the
    world's [db], the mutex is not modelled (operations run one at a time). *)
Record AgentManager := MkMgr {
  agents : gmap string string;            (* callID -> agent sessionID *)
  clients : gmap string nat;              (* callID -> *RoomClient *)
  cancels : gmap string nat;              (* callID -> the context it cancels *)
  cfg : Config;
  tts : option TTS;
  llm : option LLM;
  stt : option STT }.

(** The goroutine [SpawnAgent] starts. *)
Inductive phase := Connecting | Waiting.
Record task := MkTask {
  t_callID : string; t_sessionID : string;
  t_client : nat; t_ctx : nat; t_phase : phase }.

Record World := MkWorld {
  db : DB;
  mgr : AgentManager;
  rooms : gmap nat RoomClient;            (* the heap of room clients *)
  ctxs : gmap nat bool;                   (* contexts: cancelled? *)
  tasks : gmap nat task;                  (* live goroutines *)
  env : Env;
  tick : nat;                             (* requests made to the outside so far *)
  trace : list event }.

Definition with_db (f : DB -> DB) (w : World) : World :=
  MkWorld (f (db w)) (mgr w) (rooms w) (ctxs w) (tasks w) (env w) (tick w) (trace w).
Definition with_mgr (f : AgentManager -> AgentManager) (w : World) : World :=
  MkWorld (db w) (f (mgr w)) (rooms w) (ctxs w) (tasks w) (env w) (tick w) (trace w).
Definition with_rooms (f : gmap nat RoomClient -> gmap nat RoomClient) (w : World) : World :=
  MkWorld (db w) (mgr w) (f (rooms w)) (ctxs w) (tasks w) (env w) (tick w) (trace w).
Definition with_ctxs (f : gmap nat bool -> gmap nat bool) (w : World) : World :=
  MkWorld (db w) (mgr w) (rooms w) (f (ctxs w)) (tasks w) (env w) (tick w) (trace w).
Definition with_tasks (f : gmap nat task -> gmap nat task) (w : World) : World :=
  MkWorld (db w) (mgr w) (rooms w) (ctxs w) (f (tasks w)) (env w) (tick w) (trace w).
Definition with_tick (f : nat -> nat) (w : World) : World :=
  MkWorld (db w) (mgr w) (rooms w) (ctxs w) (tasks w) (env w) (f (tick w)) (trace w).
Definition with_trace (f : list event -> list event) (w : World) : World :=
  MkWorld (db w) (mgr w) (rooms w) (ctxs w) (tasks w) (env w) (tick w) (f (trace w)).

(** ** A state monad over the world *)

Definition M (A : Type) : Type := World -> A * World.

Definition ret {A} (a : A) : M A := fun w => (a, w).
Definition bind {A B} (m : M A) (k : A -> M B) : M B :=
  fun w => let (a, w') := m w in k a w'.
Definition get : M World := fun w => (w, w).
Definition modify (f : World -> World) : M unit := fun w => (tt, f w).

Notation "'let*' x ':=' m 'in' k" := (bind m (fun x => k))
  (at level 10, x pattern, m at level 100, k at level 200).
Notation "m ';;' k" := (bind m (fun _ => k))
  (at level 100, k at level 200, right associativity).
(** Go's [v, err := f(); if err != nil { return ..., err }]. *)
Notation "'try' x ':=' m 'in' k" :=
  (bind m (fun r => match r with Ok x => k | Err e => ret (Err e) end))
  (at level 10, x pattern, m at level 100, k at level 200).

Definition emit (e : event) : M unit := modify (with_trace (fun t => t ++ [e])).
Definition logf (format : string) : M unit := emit (EvLog format).

(** One request to the outside: the current tick, which then advances. *)
Definition next_tick : M nat :=
  fun w => (tick w, with_tick S w).

Definition now_unix : M Z :=
  let* k := next_tick in let* w := get in ret (env_clock (env w) k).

(** ** [store.Store] *)

Module store.

(** [genID]: 12 random bytes, in hex. *)
Definition genID : M (result string) :=
  let* k := next_tick in
  let* w := get in
  match env_rand (env w) k with
  | None => ret (Err "crypto/rand: read failed")
  | Some b => ret (Ok (hex.EncodeToString (map b (seq 0 12))))
  end.

(** [s.DB.Exec(q)]: the statement applied to the tables at once, unless
    the driver fails the request. *)
Definition Exec (q : stmt) : M (result Z) :=
  let* k := next_tick in
  let* w := get in
  if env_fault (env w) k then ret (Err "driver: bad connection")
  else match exec_stmt q (db w) with
       | Err e => ret (Err e)
       | Ok (d, n) => modify (with_db (fun _ => d)) ;; ret (Ok n)
       end.

(** A transaction works on its own copy of the tables, which [Commit]
    installs and [Rollback] drops. *)
Record Tx := MkTx { tx_tables : DB }.

Definition Begin : M (result Tx) :=
  let* k := next_tick in
  let* w := get in
  if env_fault (env w) k then ret (Err "driver: bad connection")
  else ret (Ok (MkTx (db w))).

Definition TxExec (tx : Tx) (q : stmt) : M (result (Z * Tx)) :=
  let* k := next_tick in
  let* w := get in
  if env_fault (env w) k then ret (Err "driver: bad connection")
  else match exec_stmt q (tx_tables tx) with
       | Err e => ret (Err e)
       | Ok (d, n) => ret (Ok (n, MkTx d))
       end.

Definition Rollback (tx : Tx) : M unit := ret tt.

(** A commit that fails leaves the tables as they were. *)
Definition Commit (tx : Tx) : M (result unit) :=
  let* k := next_tick in
  let* w := get in
  if env_fault (env w) k then ret (Err "driver: bad connection")
  else modify (with_db (fun _ => tx_tables tx)) ;; ret (Ok tt).

(** [QueryRow(q).Scan(...)] of one column set of the session [id]. *)
Definition QuerySession {A} (col : session_row -> A) (id : string) : M (result A) :=
  let* k := next_tick in
  let* w := get in
  if env_fault (env w) k then ret (Err "driver: bad connection")
  else match sessions (db w) !! id with
       | None => ret (Err "sql: no rows in result set")
       | Some r => ret (Ok (col r))
       end.

Definition CreateCall (callerID : string) : M (result (string * string)) :=
  if bool_decide (callerID = "") then ret (Err "caller_id required")
  else
    try callID := genID in
    try sessionID := genID in
    try tx := Begin in
    let* now := now_unix in
    let* r := TxExec tx (InsertCall callID callerID "new" now) in
    match r with
    | Err e => Rollback tx ;; ret (Err e)
    | Ok (_, tx) =>
        let* r := TxExec tx (InsertSession sessionID callID callerID "caller" "new" now) in
        match r with
        | Err e => Rollback tx ;; ret (Err e)
        | Ok (_, tx) =>
            try _ := Commit tx in
            ret (Ok (callID, sessionID))
        end
    end.

Definition CreateSession (callID userID typ status : string) : M (result string) :=
  try id := genID in
  let* now := now_unix in
  try _ := Exec (InsertSession id callID userID typ status now) in
  ret (Ok id).

Definition UpdateSessionStatus (sessionID status : string) : M (result unit) :=
  try n := Exec (UpdateSessionStatusQ status sessionID) in
  if Z.eqb n 0 then ret (Err ("session not found: " +:+ sessionID))
  else ret (Ok tt).

Definition UpdateSessionToken (sessionID token : string) : M (result unit) :=
  try n := Exec (UpdateSessionTokenQ token sessionID) in
  if Z.eqb n 0 then ret (Err ("session not found: " +:+ sessionID))
  else ret (Ok tt).

(** A NULL token reads as the empty string. *)
Definition GetSessionToken (sessionID : string) : M (result string) :=
  try token := QuerySession sess_token sessionID in
  match token with
  | Some t => ret (Ok t)
  | None => ret (Ok "")
  end.

Definition UpdateCallStatus (callID status : string) : M (result unit) :=
  try n := Exec (UpdateCallStatusQ status callID) in
  if Z.eqb n 0 then ret (Err ("call not found: " +:+ callID))
  else ret (Ok tt).

Definition FindSessionByIdentity (identity : string) : M (result (string * string)) :=
  QuerySession (fun r => (sess_call_id r, sess_status r)) identity.

End store.

(** ** [livekit.GenerateAccessToken] *)

Module livekit.

Definition GenerateAccessToken (apiKey apiSecret room identity : string)
    (ttlSeconds : Z) : M (result string) :=
  if bool_decide (apiKey = "") || bool_decide (apiSecret = "")
  then ret (Err "livekit api key/secret required")
  else
    let ttlSeconds := if Z.leb ttlSeconds 0 then 3600 else ttlSeconds in
    let* now := now_unix in
    let* later := now_unix in
    let exp := later + ttlSeconds in
    let* k := next_tick in
    let* w := get in
    match env_rand (env w) k with
    | None => ret (Err "generate jti: crypto/rand: read failed")
    | Some b =>
        let jti := hex.EncodeToString (map b (seq 0 16)) in
        let c := MkClaims jti apiKey now exp "" identity room in
        match env_sign (env w) c (bytes_of apiSecret) with
        | Err e => ret (Err ("sign token: " +:+ e))
        | Ok signed => ret (Ok signed)
        end
    end.

End livekit.

(** ** Calls into the capabilities, recorded in the trace *)

Definition call_Recognize (s : STT) (audio : list byte) : M (result (string * float32)) :=
  emit (EvRecognize audio) ;; ret (Recognize s audio).
Definition call_Generate (l : LLM) (prompt : string) : M (result string) :=
  emit (EvGenerate prompt) ;; ret (Generate l prompt).
Definition call_Speak (t : TTS) (text : string) : M (result (list byte)) :=
  emit (EvSpeak text) ;; ret (Speak t text).

(** ** [livekitclient.RoomClient] *)

Module livekitclient.

Definition set_done (rc : RoomClient) : RoomClient :=
  MkRoomClient (rc_url rc) (rc_token rc) (rc_roomName rc) (rc_identity rc)
    (rc_conn rc) (rc_pc rc) (rc_stt rc) (rc_llm rc) (rc_tts rc) true
    (rc_audioTrack rc).
Definition set_link (conn pc : bool) (track : option Track) (rc : RoomClient)
    : RoomClient :=
  MkRoomClient (rc_url rc) (rc_token rc) (rc_roomName rc) (rc_identity rc)
    conn pc (rc_stt rc) (rc_llm rc) (rc_tts rc) (rc_done rc) track.

(** [NewRoomClient]: a fresh client on the heap, its address returned. *)
Definition NewRoomClient (url token roomName identity : string)
    (stt : option STT) (llm : option LLM) (tts : option TTS) : M nat :=
  let* w := get in
  let a := fresh (dom (rooms w)) in
  modify (with_rooms
    <[a := MkRoomClient url token roomName identity false false stt llm tts false None]>) ;;
  ret a.

(** [Connect]: the dial, the peer connection, the local track and its
    registration, in this order; each step that succeeds is kept in the
    client even when a later one fails. *)
Definition Connect (a : nat) : M (result unit) :=
  logf "Connecting to LiveKit room: %s" ;;
  let* k := next_tick in
  let* w := get in
  match env_connect (env w) k with
  | DialFails => ret (Err "failed to dial websocket")
  | PeerConnectionFails =>
      modify (with_rooms (alter (set_link true false None) a)) ;;
      ret (Err "failed to create peer connection")
  | NewTrackFails =>
      modify (with_rooms (alter (set_link true true None) a)) ;;
      ret (Err "failed to create audio track")
  | AddTrackFails track =>
      modify (with_rooms (alter (set_link true true (Some track)) a)) ;;
      ret (Err "failed to add track")
  | ConnectSucceeds track =>
      modify (with_rooms (alter (set_link true true (Some track)) a)) ;;
      logf "Successfully connected to room %s as %s" ;;
      ret (Ok tt)
  end.

(** [Disconnect] cancels the client's own context and closes what is
    open; it always returns nil. *)
Definition Disconnect (a : nat) : M (result unit) :=
  let* w := get in
  match rooms w !! a with
  | None => ret (Ok tt)
  | Some rc =>
      modify (with_rooms (alter set_done a)) ;;
      (if rc_pc rc then emit (EvPeerClose a) else ret tt) ;;
      (if rc_conn rc then emit (EvConnClose a) else ret tt) ;;
      ret (Ok tt)
  end.

(** The slices [audioData[i:end]] of [publishAudio]'s loop. *)
Fixpoint chunks (fuel : nat) (chunkSize : nat) (data : list byte) : list (list byte) :=
  match fuel with
  | O => []
  | S fuel' =>
      match data with
      | [] => []
      | _ => firstn chunkSize data :: chunks fuel' chunkSize (skipn chunkSize data)
      end
  end.

Fixpoint write_samples (t : Track) (cs : list (list byte)) : M (result unit) :=
  match cs with
  | [] => ret (Ok tt)
  | c :: rest =>
      emit (EvWriteSample c) ;;
      match WriteSample t c with
      | Err e => ret (Err ("failed to write sample: " +:+ e))
      | Ok _ => write_samples t rest
      end
  end.

(** [publishAudio]: 100 ms chunks of 16 kHz 16-bit samples. *)
Definition publishAudio (rc : RoomClient) (audioData : list byte) : M (result unit) :=
  match rc_audioTrack rc with
  | None => ret (Err "audio track not initialized")
  | Some t => write_samples t (chunks (length audioData) 3200 audioData)
  end.

Definition processAudioChunk (a : nat) (audio : list byte) : M unit :=
  let* w := get in
  match rooms w !! a with
  | None => ret tt
  | Some rc =>
      if bool_decide (length audio = 0%nat) then ret tt else
      match rc_stt rc with
      | None => ret tt
      | Some s =>
          let* r := call_Recognize s audio in
          match r with
          | Err _ => logf "STT error: %v"
          | Ok (transcript, confidence) =>
              if lt_half confidence || bool_decide (transcript = "") then ret tt
              else
                logf "User said: %s (confidence: %.2f)" ;;
                let* response :=
                  match rc_llm rc with
                  | Some l =>
                      let* g := call_Generate l transcript in
                      match g with
                      | Err _ =>
                          logf "LLM error: %v" ;;
                          ret "I'm sorry, I didn't catch that."
                      | Ok response => ret response
                      end
                  | None => ret ("I heard you say: " +:+ transcript)
                  end in
                logf "Agent response: %s" ;;
                match rc_tts rc, rc_audioTrack rc with
                | Some t, Some _ =>
                    let* sp := call_Speak t response in
                    match sp with
                    | Err _ => logf "TTS error: %v"
                    | Ok audioData =>
                        let* p := publishAudio rc audioData in
                        match p with
                        | Err _ => logf "Failed to publish audio: %v"
                        | Ok _ => ret tt
                        end
                    end
                | _, _ => ret tt
                end
          end
      end
  end.

End livekitclient.

(** ** [agentmgr.AgentManager] *)

Module agentmgr.

Definition set_maps (ag : gmap string string) (cl ca : gmap string nat)
    (m : AgentManager) : AgentManager :=
  MkMgr ag cl ca (cfg m) (tts m) (llm m) (stt m).

(** [New]: three empty maps. *)
Definition New (c : Config) (t : option TTS) (l : option LLM) (s : option STT)
    : AgentManager :=
  MkMgr ∅ ∅ ∅ c t l s.

(** [delete(m.agents, callID); delete(m.clients, callID);
    delete(m.cancels, callID)]. *)
Definition delete_entries (callID : string) : M unit :=
  modify (with_mgr (fun m =>
    set_maps (delete callID (agents m)) (delete callID (clients m))
             (delete callID (cancels m)) m)).

(** [lk[key]] of a possibly nil map: the empty string when absent. *)
Definition setting (lk : option (gmap string string)) (key : string) : string :=
  match lk with
  | Some m => default "" (m !! key)
  | None => ""
  end.

Definition SpawnAgent (callID : string) : M (result (string * string)) :=
  let* w := get in
  match agents (mgr w) !! callID with
  | Some _ => ret (Err ("agent already exists for call " +:+ callID))
  | None =>
      let agentUser := "ai-agent" in
      try sessionID := store.CreateSession callID agentUser "agent" "new" in
      let lk := VendorSettings (cfg (mgr w)) !! "livekit" in
      let apiKey := setting lk "api_key" in
      let apiSecret := setting lk "api_secret" in
      let url := setting lk "url" in
      if bool_decide (url = "") then ret (Err "livekit url not configured")
      else
        try token := livekit.GenerateAccessToken apiKey apiSecret callID sessionID 3600 in
        store.UpdateSessionToken sessionID token ;;
        store.UpdateSessionStatus sessionID "active" ;;
        (* ctx, cancel := context.WithCancel(context.Background()) *)
        let* w1 := get in
        let ctx := fresh (dom (ctxs w1)) in
        modify (with_ctxs <[ctx := false]>) ;;
        let* roomClient :=
          livekitclient.NewRoomClient url token callID sessionID
            (stt (mgr w)) (llm (mgr w)) (tts (mgr w)) in
        modify (with_mgr (fun m =>
          set_maps (<[callID := sessionID]> (agents m))
                   (<[callID := roomClient]> (clients m))
                   (<[callID := ctx]> (cancels m)) m)) ;;
        (* go func() { ... }() *)
        let* w2 := get in
        modify (with_tasks
          <[fresh (dom (tasks w2)) :=
              MkTask callID sessionID roomClient ctx Connecting]>) ;;
        ret (Ok (sessionID, token))
  end.

(** The goroutine of [SpawnAgent], up to [<-ctx.Done()]: a failed connect
    removes the call's entries and ends the session. *)
Definition agent_connect (tid : nat) : M unit :=
  let* w := get in
  match tasks w !! tid with
  | Some (MkTask callID sessionID roomClient ctx Connecting) =>
      let* r := livekitclient.Connect roomClient in
      match r with
      | Err _ =>
          logf "Failed to connect agent to room %s: %v" ;;
          delete_entries callID ;;
          store.UpdateSessionStatus sessionID "ended" ;;
          modify (with_tasks (delete tid))
      | Ok _ =>
          modify (with_tasks
            <[tid := MkTask callID sessionID roomClient ctx Waiting]>)
      end
  | _ => ret tt
  end.

(** The goroutine after [<-ctx.Done()], which it passes once the context
    is cancelled. *)
Definition agent_done (tid : nat) : M unit :=
  let* w := get in
  match tasks w !! tid with
  | Some (MkTask callID sessionID roomClient ctx Waiting) =>
      if default false (ctxs w !! ctx) then
        livekitclient.Disconnect roomClient ;;
        store.UpdateSessionStatus sessionID "ended" ;;
        modify (with_tasks (delete tid))
      else ret tt
  | _ => ret tt
  end.

Definition StopAgent (callID : string) : M (result unit) :=
  let* w := get in
  let cancel := cancels (mgr w) !! callID in
  let sessionID := default "" (agents (mgr w) !! callID) in
  let client := clients (mgr w) !! callID in
  delete_entries callID ;;
  match cancel with
  | None => ret (Err ("no agent for call " +:+ callID))
  | Some ctx =>
      modify (with_ctxs <[ctx := true]>) ;;
      match client with
      | Some a => livekitclient.Disconnect a ;; ret tt
      | None => ret tt
      end ;;
      store.UpdateSessionStatus sessionID "ended" ;;
      ret (Ok tt)
  end.

Definition fallback_reply : string := "I heard you. Let me know if you'd like help.".

Definition ProcessIncomingAudio (sessionID : string) (audio : list byte)
    : M (result string) :=
  let* w := get in
  match stt (mgr w) with
  | None => ret (Err "stt not configured")
  | Some s =>
      try (transcript, _) := call_Recognize s audio in
      let* reply :=
        match llm (mgr w) with
        | Some l =>
            let* g := call_Generate l transcript in
            match g with
            | Ok r => ret r
            | Err _ => ret ""
            end
        | None => ret ""
        end in
      let reply := if bool_decide (reply = "") then fallback_reply else reply in
      match tts (mgr w) with
      | Some t =>
          let* sp := call_Speak t reply in
          match sp with
          | Ok audioOut =>
              if (0 <? length audioOut)%nat then
                emit (EvMkdirAll "out/agents") ;;
                let* now := now_unix in
                emit (EvWriteFile "out/agents"
                        ("agent-reply-" +:+ sessionID +:+ "-" +:+ pretty now +:+ ".wav")
                        audioOut)
              else ret tt
          | Err _ => ret tt
          end
      | None => ret tt
      end ;;
      ret (Ok transcript)
  end.

End agentmgr.

(** ** [net/http] requests and responses *)

Module http.

Definition upper (c : ascii) : ascii :=
  let n := nat_of_ascii c in
  if ((97 <=? n) && (n <=? 122))%nat then ascii_of_nat (n - 32) else c.
Definition lower (c : ascii) : ascii :=
  let n := nat_of_ascii c in
  if ((65 <=? n) && (n <=? 90))%nat then ascii_of_nat (n + 32) else c.

(** [textproto.CanonicalMIMEHeaderKey] on a key made of letters, digits
    and hyphens: the first letter and each letter after a hyphen in upper
    case, the others in lower case. *)
Fixpoint canonical (up : bool) (key : string) : string :=
  match key with
  | EmptyString => EmptyString
  | String c rest =>
      String (if up then upper c else lower c)
             (canonical (bool_decide (c = "-"%char)) rest)
  end.
Definition CanonicalHeaderKey (key : string) : string := canonical true key.

(** A header: canonical key to the values sent under it. *)
Definition Header := gmap string (list string).

(** [Header.Get]: the first value, or the empty string. *)
Definition Get (h : gmap string (list string)) (key : string) : string :=
  match h !! CanonicalHeaderKey key with
  | Some (v :: _) => v
  | _ => ""
  end.

Record Request := MkRequest {
  Method : string;
  Headers : gmap string (list string);
  Body : result (list byte) }.          (* what io.ReadAll(r.Body) returns *)

Record Response := MkResponse {
  StatusCode : Z;
  Written : string }.

(** [http.Error(w, msg, code)] writes the message and a newline. *)
Definition Error (msg : string) (code : Z) : Response :=
  MkResponse code (msg +:+ String (ascii_of_nat 10) "").

(** [w.WriteHeader(code)] with nothing written. *)
Definition WriteHeader (code : Z) : Response := MkResponse code "".

Definition StatusBadRequest : Z := 400.
Definition StatusUnauthorized : Z := 401.
Definition StatusMethodNotAllowed : Z := 405.
Definition StatusNoContent : Z := 204.

End http.

(** ** [cmd/server]: the [/webhook/livekit] handler *)

Module server.

(** [json.Unmarshal(body, &evt)] for [evt map[string]interface{}]: an
    object fills the map, [null] leaves it nil, any other value is an
    error, as is a body that does not parse. *)
Definition Unmarshal_map (body : list byte) : M (result (gmap string json)) :=
  let* w := get in
  match env_json (env w) body with
  | Err e => ret (Err e)
  | Ok (JObject m) => ret (Ok m)
  | Ok JNull => ret (Ok ∅)
  | Ok _ => ret (Err "json: cannot unmarshal into Go value of type map[string]interface {}")
  end.

(** [v, _ := evt[key].(string)]. *)
Definition str_field (evt : gmap string json) (key : string) : option string :=
  match evt !! key with
  | Some (JString s) => Some s
  | _ => None
  end.
(** [v, ok := evt[key].(map[string]interface{})]. *)
Definition obj_field (evt : gmap string json) (key : string) : option (gmap string json) :=
  match evt !! key with
  | Some (JObject m) => Some m
  | _ => None
  end.

(** The signature the request carries: [X-LiveKit-Signature], or
    [Livekit-Signature] when that one is empty or absent. *)
Definition signature_header (h : gmap string (list string)) : string :=
  let sig := http.Get h "X-LiveKit-Signature" in
  if bool_decide (sig = "") then http.Get h "Livekit-Signature" else sig.

(** The signature check; [None] lets the request through. *)
Definition verify_signature (secret : string) (h : gmap string (list string))
    (body : list byte) : option http.Response :=
  let sig := signature_header h in
  if bool_decide (sig = "") then
    Some (http.Error "missing signature" http.StatusUnauthorized)
  else
    let expected := hmac.Sum (bytes_of secret) body in
    let hexExp := hex.EncodeToString expected in
    if hmac.Equal (bytes_of hexExp) (bytes_of sig) then None
    else
      let b64 := base64.EncodeToString expected in
      if negb (hmac.Equal (bytes_of b64) (bytes_of sig)) then
        Some (http.Error "invalid signature" http.StatusUnauthorized)
      else None.

(** [SELECT type FROM sessions WHERE id = ?] scanned into [sessionType],
    then [err == nil && sessionType == "caller"]. *)
Definition is_caller (identity : string) : M bool :=
  let* r := store.QuerySession sess_type identity in
  match r with
  | Ok t => ret (bool_decide (t = "caller"))
  | Err _ => ret false
  end.

Definition on_participant_joined (identity : string) : M unit :=
  if bool_decide (identity = "") then ret tt else
  store.UpdateSessionStatus identity "active" ;;
  let* f := store.FindSessionByIdentity identity in
  match f with
  | Err _ => ret tt
  | Ok (callID, _) =>
      store.UpdateCallStatus callID "active" ;;
      let* c := is_caller identity in
      if c then
        let* r := agentmgr.SpawnAgent callID in
        match r with
        | Err _ => logf "failed to spawn agent for call %s: %v"
        | Ok _ => logf "spawned agent session=%s token_len=%d for call=%s"
        end
      else ret tt
  end.

Definition on_participant_left (identity : string) : M unit :=
  if bool_decide (identity = "") then ret tt else
  store.UpdateSessionStatus identity "ended" ;;
  let* f := store.FindSessionByIdentity identity in
  match f with
  | Err _ => ret tt
  | Ok (callID, _) =>
      let* c := is_caller identity in
      if c then
        let* r := agentmgr.StopAgent callID in
        match r with
        | Err _ => logf "stop agent error for call %s: %v"
        | Ok _ => ret tt
        end ;;
        store.UpdateCallStatus callID "ended" ;;
        ret tt
      else ret tt
  end.

Definition on_room_ended (evt : gmap string json) : M unit :=
  match obj_field evt "room" with
  | Some room =>
      match str_field room "name" with
      | Some roomName =>
          store.UpdateCallStatus roomName "ended" ;;
          let* r := agentmgr.StopAgent roomName in
          match r with
          | Err _ => logf "stop agent error for call %s: %v"
          | Ok _ => ret tt
          end ;;
          logf "Room %s disconnected, call ended"
      | None => ret tt
      end
  | None => ret tt
  end.

Definition webhook_livekit (r : http.Request) : M http.Response :=
  if negb (bool_decide (http.Method r = "POST")) then
    ret (http.Error "method not allowed" http.StatusMethodNotAllowed)
  else
  match http.Body r with
  | Err _ => ret (http.Error "failed to read body" http.StatusBadRequest)
  | Ok body =>
      let* w := get in
      let lk := VendorSettings (cfg (mgr w)) !! "livekit" in
      let secret := agentmgr.setting lk "api_secret" in
      let rejected :=
        if bool_decide (secret = "") then None
        else verify_signature secret (http.Headers r) body in
      match rejected with
      | Some resp => ret resp
      | None =>
          let* u := Unmarshal_map body in
          match u with
          | Err _ => ret (http.Error "bad request" http.StatusBadRequest)
          | Ok evt =>
              let t := default "" (str_field evt "type") in
              let identity :=
                match obj_field evt "participant" with
                | Some p => default "" (str_field p "identity")
                | None => ""
                end in
              (if bool_decide (t = "participant_joined") then on_participant_joined identity
               else if bool_decide (t = "participant_left") then on_participant_left identity
               else if bool_decide (t = "room_disconnected") || bool_decide (t = "room_ended")
                    then on_room_ended evt
               else ret tt) ;;
              ret (http.WriteHeader http.StatusNoContent)
          end
      end
  end.

End server.

(** ** The running system *)

(** What can happen next: a call into the manager or the store, a request
    to the webhook, a window flushed by a room client, or a step of one of
    the goroutines started by [SpawnAgent]. *)
Inductive op :=
  | OpSpawnAgent (callID : string)
  | OpStopAgent (callID : string)
  | OpConnect (tid : nat)
  | OpDone (tid : nat)
  | OpCreateCall (callerID : string)
  | OpProcessIncomingAudio (sessionID : string) (audio : list byte)
  | OpAudioChunk (client : nat) (audio : list byte)
  | OpWebhook (r : http.Request).

Definition run_op (o : op) (w : World) : World :=
  match o with
  | OpSpawnAgent callID => snd (agentmgr.SpawnAgent callID w)
  | OpStopAgent callID => snd (agentmgr.StopAgent callID w)
  | OpConnect tid => snd (agentmgr.agent_connect tid w)
  | OpDone tid => snd (agentmgr.agent_done tid w)
  | OpCreateCall callerID => snd (store.CreateCall callerID w)
  | OpProcessIncomingAudio sessionID audio =>
      snd (agentmgr.ProcessIncomingAudio sessionID audio w)
  | OpAudioChunk client audio => snd (livekitclient.processAudioChunk client audio w)
  | OpWebhook r => snd (server.webhook_livekit r w)
  end.

Definition run (ops : list op) (w : World) : World :=
  fold_left (fun w o => run_op o w) ops w.

(** The process starts on whatever tables an earlier run left, with a
    manager made by [New]. *)
Definition init (e : Env) (tables : DB) (c : Config)
    (t : option TTS) (l : option LLM) (s : option STT) : World :=
  MkWorld tables (agentmgr.New c t l s) ∅ ∅ ∅ e 0 [].

Inductive reachable : World -> Prop :=
  | reach_init e tables c t l s : reachable (init e tables c t l s)
  | reach_step w o : reachable w -> reachable (run_op o w).




(** The entries of a call are the same in two managers. *)
Definition same_entries (callID : string) (m m' : AgentManager) : Prop :=
  agents m' !! callID = agents m !! callID /\
  clients m' !! callID = clients m !! callID /\
  cancels m' !! callID = cancels m !! callID.

(** [kept callID w w']: a call that has an agent in [w] has the same
    entries in [w']. *)
Definition kept (callID : string) (w w' : World) : Prop :=
  is_Some (agents (mgr w) !! callID) -> same_entries callID (mgr w) (mgr w').

(** The three maps of the manager hold the same call identifiers. *)
Definition maps_aligned (m : AgentManager) : Prop :=
  dom (agents m) = dom (clients m) /\ dom (agents m) = dom (cancels m).

(** Every registered agent session has its row in the store. *)
Definition sessions_recorded (w : World) : Prop :=
  forall callID sessionID,
    agents (mgr w) !! callID = Some sessionID ->
    is_Some (sessions (db w) !! sessionID).


(** ** Relations between a world and a later one *)

(** [keeps w w']: going from [w] to [w'] the outside stays the same and no
    session row is lost. *)
Definition keeps (w w' : World) : Prop :=
  env w' = env w /\
  forall id, is_Some (sessions (db w) !! id) -> is_Some (sessions (db w') !! id).

(** [store_only w w']: only the tables and the tick differ, and no session
    row is lost. *)
Definition store_only (w w' : World) : Prop :=
  mgr w' = mgr w /\ rooms w' = rooms w /\ ctxs w' = ctxs w /\
  tasks w' = tasks w /\ trace w' = trace w /\ keeps w w'.

(** [frame w w']: the manager is untouched and no session row is lost. *)
Definition frame (w w' : World) : Prop := mgr w' = mgr w /\ keeps w w'.

(** The invariant of the registry. *)
Definition inv (w : World) : Prop :=
  maps_aligned (mgr w) /\ sessions_recorded w.

(** [inv_step w w']: no session row is lost and the invariant carries over. *)
Definition inv_step (w w' : World) : Prop :=
  keeps w w' /\ (inv w -> inv w').

(** [m] relates every world to the one it leaves behind by [R]. *)
Definition preserves {A} (R : World -> World -> Prop) (m : M A) : Prop :=
  forall w, R w (snd (m w)).

(** ** A sample deployment, for the examples *)

Module sample.

(** The binary32 values 1.0 and 0.25. *)
Definition one32 : float32 := S754_finite false 8388608 (-23).
Definition quarter32 : float32 := S754_finite false 8388608 (-25).

(** A parser that knows two bodies: an empty object and a [room_ended]
    event for the room [c1]. *)
Definition parse (body : list byte) : result json :=
  if bool_decide (body = bytes_of "{}") then Ok (JObject ∅)
  else if bool_decide (body = bytes_of "room_ended c1") then
    Ok (JObject {[ "type" := JString "room_ended";
                   "room" := JObject {[ "name" := JString "c1" ]} ]})
  else Err "invalid character".

Definition track : Track := {| WriteSample := fun _ => Ok tt |}.

(** Random bytes that differ from one request to the next, a driver that
    serves every request, a clock, a network on which every connect
    succeeds. *)
Definition outside : Env :=
  MkEnv (fun k => Some (fun i => byte_of_Z (Z.of_nat (17 * k + i))))
        (fun _ => false)
        (fun k => 1700000000 + Z.of_nat k)
        (fun _ => ConnectSucceeds track)
        (fun c key => Ok ("jwt:" +:+ cl_name c +:+ "@" +:+ cl_video_room c))
        parse.

(** The same, with a network on which no dial succeeds. *)
Definition outside_offline : Env :=
  MkEnv (env_rand outside) (env_fault outside) (env_clock outside)
        (fun _ => DialFails) (env_sign outside) (env_json outside).

(** The same, with a driver that fails the request made at tick [n] and
    no other. *)
Definition outside_fault_at (n : nat) : Env :=
  MkEnv (env_rand outside) (fun k => Nat.eqb k n) (env_clock outside)
        (env_connect outside) (env_sign outside) (env_json outside).

(** The same, with a driver that fails every request. *)
Definition outside_down : Env :=
  MkEnv (env_rand outside) (fun _ => true) (env_clock outside)
        (env_connect outside) (env_sign outside) (env_json outside).

Definition config : Config :=
  MkConfig {[ "livekit" :=
    {[ "url" := "ws://livekit:7880"; "api_key" := "devkey"; "api_secret" := "secret" ]} ]}.

(** A configuration with the key and the secret and no URL. *)
Definition config_no_url : Config :=
  MkConfig {[ "livekit" := {[ "api_key" := "devkey"; "api_secret" := "secret" ]} ]}.

Definition hears (confidence : float32) : STT :=
  {| Recognize := fun _ => Ok ("hello", confidence) |}.
Definition llm_up : LLM := {| Generate := fun prompt => Ok ("You said: " +:+ prompt) |}.
Definition llm_down : LLM := {| Generate := fun _ => Err "connection refused" |}.
Definition tts_up : TTS := {| Speak := fun text => Ok (bytes_of text) |}.

Definition audio : list byte := bytes_of "RIFF".

(** A fresh process on empty tables. *)
Definition start (c : Config) (t : option TTS) (l : option LLM) (s : option STT) : World :=
  init outside (MkDB ∅ ∅) c t l s.

(** A fresh process with no agent capabilities and an unreachable LiveKit. *)
Definition start_offline : World :=
  init outside_offline (MkDB ∅ ∅) config None None None.

(** A connected room client, and a world with it on the heap. *)
Definition client (l : option LLM) (s : option STT) : RoomClient :=
  MkRoomClient "ws://livekit:7880" "jwt" "c1" "s1" true true
    s l (Some tts_up) false (Some track).
Definition with_client (l : option LLM) (s : option STT) : World :=
  with_rooms <[0%nat := client l s]> (start config (Some tts_up) l s).

(** Requests to the webhook with the body of an empty object: signed in
    hex, signed in base64 under the second header name, and badly signed. *)
Definition post (headers : gmap string (list string)) (body : string) : http.Request :=
  http.MkRequest "POST" headers (Ok (bytes_of body)).
Definition signed_hex : http.Request :=
  post {[ "X-Livekit-Signature" :=
            ["77325902caca812dc259733aacd046b73817372c777b8d95b402647474516e13"] ]} "{}".
Definition signed_base64 : http.Request :=
  post {[ "Livekit-Signature" := ["dzJZAsrKgS3CWXM6rNBGtzgXNyx3e42VtAJkdHRRbhM="] ]} "{}".
Definition badly_signed : http.Request :=
  post {[ "X-Livekit-Signature" := ["deadbeef"] ]} "{}".

End sample.

(** * Properties *)

(** ** The library functions on their test vectors *)

Example sha256_abc :
  hex.EncodeToString (sha256.Sum256 (bytes_of "abc")) =
  "ba7816bf8f01cfea414140de5dae2223b00361a396177a9cb410ff61f20015ad".
Proof. vm_compute. reflexivity. Qed.

Example hmac_rfc4231_2 :
  hex.EncodeToString (hmac.Sum (bytes_of "Jefe") (bytes_of "what do ya want for nothing?")) =
  "5bdcc146bf60754e6a042426089575c75a003f089d2739839dec58b964ec3843".
Proof. vm_compute. reflexivity. Qed.

Example base64_foobar :
  base64.EncodeToString (bytes_of "foobar") = "Zm9vYmFy" /\
  base64.EncodeToString (bytes_of "fooba") = "Zm9vYmE=" /\
  base64.EncodeToString (bytes_of "foob") = "Zm9vYg==".
Proof. vm_compute. auto. Qed.

(** The sample confidences and the threshold are binary32 values. *)
Example sample_floats_valid :
  valid_binary 24 128 half32 = true /\
  valid_binary 24 128 sample.one32 = true /\
  valid_binary 24 128 sample.quarter32 = true.
Proof. vm_compute. auto. Qed.


(** ** Running the monad *)

Arguments hex.EncodeToString : simpl never.
Arguments base64.EncodeToString : simpl never.
Arguments sha256.Sum256 : simpl never.
Arguments hmac.Sum : simpl never.
Arguments pretty : simpl never.
Arguments String.append : simpl never.

Ltac unfold_M :=
  unfold bind, ret, get, modify, emit, logf, next_tick, now_unix in *.

Lemma bind_run {A B} (m : M A) (k : A -> M B) (w : World) :
  bind m k w = k (fst (m w)) (snd (m w)).
Proof. unfold bind. destruct (m w); reflexivity. Qed.

Lemma keeps_refl w : keeps w w.
Proof. split; auto. Qed.

Lemma keeps_trans w1 w2 w3 : keeps w1 w2 -> keeps w2 w3 -> keeps w1 w3.
Proof. intros [E1 H1] [E2 H2]; split; [congruence | auto]. Qed.

(** ** The store *)

Lemma exec_stmt_sessions q d d' n id :
  exec_stmt q d = Ok (d', n) ->
  is_Some (sessions d !! id) -> is_Some (sessions d' !! id).
Proof.
  intros H Hid. destruct q; simpl in H; repeat case_match; simplify_eq; simpl; auto.
  all: destruct (decide (id0 = id)) as [->|Hne];
    [ rewrite lookup_insert_eq; eauto | rewrite lookup_insert_ne by done; auto ].
Qed.

(** A statement sent with [Exec] touches nothing but the tables. *)
Lemma Exec_run q w :
  let r := fst (store.Exec q w) in
  let w' := snd (store.Exec q w) in
  mgr w' = mgr w /\ rooms w' = rooms w /\ ctxs w' = ctxs w /\ tasks w' = tasks w /\
  trace w' = trace w /\ tick w' = S (tick w) /\ env w' = env w /\
  match r with
  | Ok n => env_fault (env w) (tick w) = false /\ exec_stmt q (db w) = Ok (db w', n)
  | Err e => db w' = db w
  end.
Proof.
  unfold store.Exec. unfold_M. simpl.
  destruct (env_fault (env w) (tick w)) eqn:Hf; simpl; [auto 10|].
  destruct (exec_stmt q (db w)) as [[d n]|e] eqn:Hq; simpl; auto 10.
Qed.

Lemma Exec_ok q w d n :
  env_fault (env w) (tick w) = false ->
  exec_stmt q (db w) = Ok (d, n) ->
  store.Exec q w = (Ok n, with_db (fun _ => d) (with_tick S w)).
Proof.
  intros Hf Hq. unfold store.Exec. unfold_M. simpl. rewrite Hf, Hq. reflexivity.
Qed.

Lemma Exec_keeps q w : keeps w (snd (store.Exec q w)).
Proof.
  pose proof (Exec_run q w) as H. simpl in H.
  destruct H as (_ & _ & _ & _ & _ & _ & He & Hr).
  split; [done|]. intros id Hid.
  destruct (fst (store.Exec q w)).
  - destruct Hr as [_ Hq]. eapply exec_stmt_sessions; eauto.
  - rewrite Hr. done.
Qed.

(** ** C8: the token round trip *)

(** C8. For a session that is in the store and any token, when the driver
    serves the two requests, [UpdateSessionToken] succeeds and the
    [GetSessionToken] that follows returns the very string written. *)
Theorem token_round_trip (w : World) (sessionID token : string) :
  is_Some (sessions (db w) !! sessionID) ->
  env_fault (env w) (tick w) = false ->
  env_fault (env w) (S (tick w)) = false ->
  let w1 := snd (store.UpdateSessionToken sessionID token w) in
  fst (store.UpdateSessionToken sessionID token w) = Ok tt /\
  fst (store.GetSessionToken sessionID w1) = Ok token.
Proof.
  intros [row Hrow] Hf1 Hf2.
  unfold store.UpdateSessionToken, store.GetSessionToken, store.QuerySession.
  rewrite !bind_run.
  erewrite Exec_ok; [| exact Hf1 | simpl; rewrite Hrow; reflexivity ].
  unfold_M. simpl. rewrite Hf2. simpl.
  rewrite lookup_insert_eq. simpl. auto.
Qed.

(** ** C7: [CreateCall] is all or nothing *)

Ltac run_CreateCall :=
  unfold store.CreateCall, store.genID, store.Begin, store.TxExec,
    store.Commit, store.Rollback;
  unfold_M; simpl;
  repeat (case_match; simpl; try done).

(** When [CreateCall] returns an error the tables are as they were. *)
Lemma CreateCall_failure w callerID e :
  fst (store.CreateCall callerID w) = Err e ->
  db (snd (store.CreateCall callerID w)) = db w.
Proof. run_CreateCall. all: intros _; simplify_eq; reflexivity. Qed.

(** When it returns the two identifiers, both rows have been added to the
    tables, under identifiers that were free. *)
Lemma CreateCall_success w callerID callID sessionID :
  fst (store.CreateCall callerID w) = Ok (callID, sessionID) ->
  let w' := snd (store.CreateCall callerID w) in
  callerID <> "" /\
  exists now,
    calls (db w) !! callID = None /\
    sessions (db w) !! sessionID = None /\
    calls (db w') = <[callID := CallRow callerID "new" now]> (calls (db w)) /\
    sessions (db w') =
      <[sessionID := SessionRow callID callerID "caller" "new" now None]>
        (sessions (db w)).
Proof.
  run_CreateCall.
  all: intros [= <- <-]; simplify_eq; simpl.
  all: match goal with H : bool_decide _ = false |- _ =>
         apply bool_decide_eq_false in H end.
  all: split; [done|].
  all: unfold exec_stmt in *; repeat case_match; simplify_eq; simpl.
  all: eexists; repeat split; eauto.
Qed.

(** With a caller identifier, random bytes, a driver that serves the four
    requests and two identifiers that are free, [CreateCall] succeeds. *)
Lemma CreateCall_succeeds w callerID b1 b2 :
  callerID <> "" ->
  env_rand (env w) (tick w) = Some b1 ->
  env_rand (env w) (S (tick w)) = Some b2 ->
  (forall k, env_fault (env w) k = false) ->
  calls (db w) !! hex.EncodeToString (map b1 (seq 0 12)) = None ->
  sessions (db w) !! hex.EncodeToString (map b2 (seq 0 12)) = None ->
  fst (store.CreateCall callerID w) =
    Ok (hex.EncodeToString (map b1 (seq 0 12)), hex.EncodeToString (map b2 (seq 0 12))).
Proof.
  intros Hc H1 H2 Hf Hcall Hsess.
  unfold store.CreateCall, store.genID, store.Begin, store.TxExec,
    store.Commit, store.Rollback.
  rewrite bool_decide_eq_false_2 by done.
  unfold_M.
  repeat (progress (cbn -[hex.EncodeToString map seq];
                    rewrite ?H1, ?H2, ?Hf, ?Hcall, ?Hsess)).
  reflexivity.
Qed.

(** C7. For a caller identifier that is not empty, [CreateCall] returns
    the two identifiers whenever the random source gives them, the driver
    serves the requests and the identifiers are free.  Whenever it returns
    the two identifiers, the call row (status new) and the caller's
    session row (role caller, status new) have both been added under them
    and the caller identifier is not empty; whenever it returns an error,
    the tables are unchanged; and an empty caller identifier is an
    error. *)
Theorem CreateCall_atomic (w : World) (callerID : string) :
  let r := fst (store.CreateCall callerID w) in
  let w' := snd (store.CreateCall callerID w) in
  (forall b1 b2,
     callerID <> "" ->
     env_rand (env w) (tick w) = Some b1 ->
     env_rand (env w) (S (tick w)) = Some b2 ->
     (forall k, env_fault (env w) k = false) ->
     calls (db w) !! hex.EncodeToString (map b1 (seq 0 12)) = None ->
     sessions (db w) !! hex.EncodeToString (map b2 (seq 0 12)) = None ->
     r = Ok (hex.EncodeToString (map b1 (seq 0 12)),
             hex.EncodeToString (map b2 (seq 0 12)))) /\
  match r with
  | Ok (callID, sessionID) =>
      callerID <> "" /\
      exists now,
        calls (db w) !! callID = None /\
        sessions (db w) !! sessionID = None /\
        calls (db w') = <[callID := CallRow callerID "new" now]> (calls (db w)) /\
        sessions (db w') =
          <[sessionID := SessionRow callID callerID "caller" "new" now None]>
            (sessions (db w))
  | Err e =>
      db w' = db w /\ (callerID = "" -> e = "caller_id required")
  end.
Proof.
  intros r w'. subst r w'. split.
  { intros b1 b2. apply CreateCall_succeeds. }
  destruct (fst (store.CreateCall callerID w)) as [[callID sessionID]|e] eqn:Hr.
  - by apply CreateCall_success.
  - split; [by eapply CreateCall_failure|].
    intros ->. revert Hr. unfold store.CreateCall. simpl. unfold_M. simpl. congruence.
Qed.

(** ** What an operation leaves alone *)

Section Preserves.
Context (R : World -> World -> Prop) `{!PreOrder R}.

Lemma preserves_ret {A} (a : A) : preserves R (ret a).
Proof. intros w. simpl. reflexivity. Qed.

Lemma preserves_get : preserves R get.
Proof. intros w. simpl. reflexivity. Qed.

Lemma preserves_bind {A B} (m : M A) (k : A -> M B) :
  preserves R m -> (forall a, preserves R (k a)) -> preserves R (bind m k).
Proof.
  intros Hm Hk w. rewrite bind_run.
  etransitivity; [apply Hm | apply Hk].
Qed.

Lemma preserves_modify (f : World -> World) :
  (forall w, R w (f w)) -> preserves R (modify f).
Proof. intros Hf w. apply Hf. Qed.
End Preserves.

(** Breaks a goal [preserves R m] down along the binds and branches of [m]. *)
Ltac preserves_tac :=
  repeat first
    [ apply preserves_ret; [typeclasses eauto]
    | apply preserves_get; [typeclasses eauto]
    | apply preserves_bind; [typeclasses eauto | | intros ?]
    | match goal with
      | |- preserves _ (match ?x with _ => _ end) => destruct x
      | |- preserves _ (if ?x then _ else _) => destruct x
      | |- preserves _ (let (_, _) := ?x in _) => destruct x
      end ].

Lemma keeps_preorder : PreOrder keeps.
Proof. split; [intros w; apply keeps_refl | intros a b c; apply keeps_trans]. Qed.
#[local] Existing Instance keeps_preorder.

Lemma store_only_preorder : PreOrder store_only.
Proof.
  split.
  - intros w. unfold store_only. auto 10 using keeps_refl.
  - intros a b c (?&?&?&?&?&Hk1) (?&?&?&?&?&Hk2).
    unfold store_only. repeat (split; [congruence|]).
    exact (keeps_trans _ _ _ Hk1 Hk2).
Qed.
#[local] Existing Instance store_only_preorder.

Lemma store_only_tick w : store_only w (with_tick S w).
Proof. unfold store_only, keeps. simpl. auto 10. Qed.

Lemma next_tick_store_only : preserves store_only next_tick.
Proof. intros w. apply store_only_tick. Qed.

Lemma Exec_store_only q : preserves store_only (store.Exec q).
Proof.
  intros w. pose proof (Exec_run q w) as H. simpl in H.
  destruct H as (?&?&?&?&?&?&?&_).
  unfold store_only. auto 10 using Exec_keeps.
Qed.

Lemma genID_store_only : preserves store_only store.genID.
Proof.
  unfold store.genID. apply preserves_bind; [apply _ | apply next_tick_store_only |].
  intros k. preserves_tac.
Qed.

Lemma now_unix_store_only : preserves store_only now_unix.
Proof.
  unfold now_unix. apply preserves_bind; [apply _ | apply next_tick_store_only |].
  intros k. preserves_tac.
Qed.

Lemma QuerySession_store_only {A} (col : session_row -> A) id :
  preserves store_only (store.QuerySession col id).
Proof.
  unfold store.QuerySession. apply preserves_bind; [apply _ | apply next_tick_store_only |].
  intros k. preserves_tac.
Qed.

Ltac store_only_tac :=
  repeat first
    [ apply Exec_store_only
    | apply genID_store_only
    | apply now_unix_store_only
    | apply QuerySession_store_only
    | apply next_tick_store_only
    | apply preserves_ret; [typeclasses eauto]
    | apply preserves_get; [typeclasses eauto]
    | apply preserves_bind; [typeclasses eauto | | intros ?]
    | match goal with
      | |- preserves _ (match ?x with _ => _ end) => destruct x
      | |- preserves _ (if ?x then _ else _) => destruct x
      | |- preserves _ (let (_, _) := ?x in _) => destruct x
      end ].

Lemma CreateSession_store_only callID userID typ status :
  preserves store_only (store.CreateSession callID userID typ status).
Proof. unfold store.CreateSession. store_only_tac. Qed.

Lemma UpdateSessionStatus_store_only sessionID status :
  preserves store_only (store.UpdateSessionStatus sessionID status).
Proof. unfold store.UpdateSessionStatus. store_only_tac. Qed.

Lemma UpdateSessionToken_store_only sessionID token :
  preserves store_only (store.UpdateSessionToken sessionID token).
Proof. unfold store.UpdateSessionToken. store_only_tac. Qed.

Lemma UpdateCallStatus_store_only callID status :
  preserves store_only (store.UpdateCallStatus callID status).
Proof. unfold store.UpdateCallStatus. store_only_tac. Qed.

Lemma FindSessionByIdentity_store_only identity :
  preserves store_only (store.FindSessionByIdentity identity).
Proof. unfold store.FindSessionByIdentity. store_only_tac. Qed.

Lemma GenerateAccessToken_store_only apiKey apiSecret room identity ttl :
  preserves store_only (livekit.GenerateAccessToken apiKey apiSecret room identity ttl).
Proof. unfold livekit.GenerateAccessToken. store_only_tac. Qed.

(** A session that [CreateSession] reports has its row. *)
Lemma CreateSession_recorded callID userID typ status w sessionID :
  fst (store.CreateSession callID userID typ status w) = Ok sessionID ->
  is_Some (sessions (db (snd (store.CreateSession callID userID typ status w))) !! sessionID).
Proof.
  unfold store.CreateSession, store.genID, store.Exec. unfold_M. simpl.
  repeat (case_match; simpl; try done).
  intros [= <-]. simplify_eq. unfold exec_stmt in *.
  repeat case_match; simplify_eq. simpl. rewrite lookup_insert_eq. eauto.
Qed.

(** ** The agent manager *)

Lemma frame_preorder : PreOrder frame.
Proof.
  split.
  - intros w. split; [done | apply keeps_refl].
  - intros a b c [? Hk1] [? Hk2]. split; [congruence|].
    exact (keeps_trans _ _ _ Hk1 Hk2).
Qed.
#[local] Existing Instance frame_preorder.

Lemma store_only_frame w w' : store_only w w' -> frame w w'.
Proof. intros (?&?&?&?&?&?). by split. Qed.

(** Runs the first operation of a bind, naming its result and the world it
    leaves, with the fact [lem] about that operation. *)
Ltac run_with m lem r w1 H :=
  cbn beta iota; rewrite (bind_run m);
  lazymatch goal with
  | |- context [m ?w] =>
      pose proof (lem w) as H; destruct (m w) as [r w1]; cbn [fst snd] in *
  end.

(** [SpawnAgent] either fails and leaves the manager as it was, or succeeds
    on a call that had no entry and adds one entry to each of the three
    maps, for a session that has its row. *)
Lemma SpawnAgent_cases callID w :
  let r := fst (agentmgr.SpawnAgent callID w) in
  let w' := snd (agentmgr.SpawnAgent callID w) in
  keeps w w' /\
  match r with
  | Err e => mgr w' = mgr w
  | Ok (sessionID, token) =>
      agents (mgr w) !! callID = None /\
      is_Some (sessions (db w') !! sessionID) /\
      exists client ctx,
        mgr w' = agentmgr.set_maps (<[callID := sessionID]> (agents (mgr w)))
                   (<[callID := client]> (clients (mgr w)))
                   (<[callID := ctx]> (cancels (mgr w))) (mgr w)
  end.
Proof.
  intros r w'. subst r w'. unfold agentmgr.SpawnAgent.
  rewrite bind_run. cbn [get fst snd].
  destruct (agents (mgr w) !! callID) eqn:Hag.
  { cbn. split; [apply keeps_refl | done]. }
  rewrite bind_run.
  pose proof (CreateSession_store_only callID "ai-agent" "agent" "new" w) as Hc.
  pose proof (CreateSession_recorded callID "ai-agent" "agent" "new" w) as Hrec.
  destruct (store.CreateSession callID "ai-agent" "agent" "new" w) as [r1 w1].
  cbn [fst snd] in *.
  destruct r1 as [sessionID|e]; [| cbn; split; apply Hc].
  specialize (Hrec _ eq_refl).
  destruct (bool_decide _) eqn:Hurl; [cbn; split; apply Hc|].
  run_with (livekit.GenerateAccessToken
              (agentmgr.setting (VendorSettings (cfg (mgr w)) !! "livekit") "api_key")
              (agentmgr.setting (VendorSettings (cfg (mgr w)) !! "livekit") "api_secret")
              callID sessionID 3600)
           (GenerateAccessToken_store_only
              (agentmgr.setting (VendorSettings (cfg (mgr w)) !! "livekit") "api_key")
              (agentmgr.setting (VendorSettings (cfg (mgr w)) !! "livekit") "api_secret")
              callID sessionID 3600) r2 w2 Hg.
  assert (store_only w w2) as H2 by (trans w1; [exact Hc | exact Hg]).
  destruct r2 as [token|e]; [| cbn; split; apply H2].
  run_with (store.UpdateSessionToken sessionID token)
           (UpdateSessionToken_store_only sessionID token) r3 w3 Ht.
  run_with (store.UpdateSessionStatus sessionID "active")
           (UpdateSessionStatus_store_only sessionID "active") r4 w4 Hs.
  assert (store_only w1 w4) as H14.
  { trans w2; [exact Hg|]. trans w3; [exact Ht | exact Hs]. }
  assert (store_only w w4) as H4 by (trans w1; [exact Hc | exact H14]).
  unfold livekitclient.NewRoomClient. unfold_M. cbn.
  destruct H4 as (Hm & _ & _ & _ & _ & Hk).
  destruct H14 as (_ & _ & _ & _ & _ & _ & Hk1).
  split; [exact Hk|]. split; [done|]. split; [by apply Hk1|].
  rewrite Hm. eauto.
Qed.

Lemma frame_modify (f : World -> World) :
  (forall w, mgr (f w) = mgr w) -> (forall w, db (f w) = db w) ->
  (forall w, env (f w) = env w) ->
  preserves frame (modify f).
Proof.
  intros Hm Hd He w. cbn. split; [apply Hm|].
  split; [apply He | rewrite Hd; auto].
Qed.

Lemma frame_of_store_only {A} (m : M A) : preserves store_only m -> preserves frame m.
Proof. intros H w. apply store_only_frame, H. Qed.

(** Proves [preserves frame m] for an [m] built from store operations and
    from changes to the heap, the contexts, the goroutines and the trace. *)
Ltac frame_tac :=
  repeat first
    [ apply preserves_ret; [typeclasses eauto]
    | apply preserves_get; [typeclasses eauto]
    | apply frame_of_store_only;
      first [ apply Exec_store_only | apply genID_store_only | apply now_unix_store_only
            | apply QuerySession_store_only | apply next_tick_store_only
            | apply CreateSession_store_only | apply UpdateSessionStatus_store_only
            | apply UpdateSessionToken_store_only | apply UpdateCallStatus_store_only
            | apply FindSessionByIdentity_store_only
            | apply GenerateAccessToken_store_only ]
    | apply frame_modify; [intros ?; reflexivity ..]
    | apply preserves_bind; [typeclasses eauto | | intros ?]
    | progress (unfold emit, logf, call_Recognize, call_Generate, call_Speak)
    | match goal with
      | |- preserves _ (match ?x with _ => _ end) => destruct x
      | |- preserves _ (if ?x then _ else _) => destruct x
      | |- preserves _ (let (_, _) := ?x in _) => destruct x
      end ].

Lemma Connect_frame a : preserves frame (livekitclient.Connect a).
Proof. unfold livekitclient.Connect. frame_tac. Qed.

Lemma Disconnect_frame a : preserves frame (livekitclient.Disconnect a).
Proof. unfold livekitclient.Disconnect. frame_tac. Qed.

Lemma write_samples_frame t cs : preserves frame (livekitclient.write_samples t cs).
Proof.
  induction cs as [|c cs IH]; simpl; [frame_tac|].
  apply preserves_bind; [apply _ | frame_tac |]. intros _.
  destruct (WriteSample t c); [exact IH | frame_tac].
Qed.

Lemma publishAudio_frame rc audioData :
  preserves frame (livekitclient.publishAudio rc audioData).
Proof.
  unfold livekitclient.publishAudio.
  destruct (rc_audioTrack rc); [apply write_samples_frame | frame_tac].
Qed.

Lemma processAudioChunk_frame a audio :
  preserves frame (livekitclient.processAudioChunk a audio).
Proof.
  unfold livekitclient.processAudioChunk.
  repeat first [ apply publishAudio_frame | progress frame_tac ].
Qed.

Lemma ProcessIncomingAudio_frame sessionID audio :
  preserves frame (agentmgr.ProcessIncomingAudio sessionID audio).
Proof. unfold agentmgr.ProcessIncomingAudio. frame_tac. Qed.

Lemma agent_done_frame tid : preserves frame (agentmgr.agent_done tid).
Proof.
  unfold agentmgr.agent_done.
  repeat first [ apply Disconnect_frame | progress frame_tac ].
Qed.

Lemma CreateCall_frame callerID : preserves frame (store.CreateCall callerID).
Proof.
  intros w. split; [| split].
  - run_CreateCall. all: simplify_eq; reflexivity.
  - run_CreateCall. all: simplify_eq; reflexivity.
  - intros id Hid.
    destruct (fst (store.CreateCall callerID w)) as [[c s]|e] eqn:Hr.
    + destruct (CreateCall_success w callerID c s Hr) as (_ & now & _ & _ & _ & ->).
      rewrite lookup_insert_is_Some. destruct (decide (s = id)); auto.
    + by rewrite (CreateCall_failure w callerID e Hr).
Qed.

(** ** The invariant of the registry *)

Lemma inv_step_preorder : PreOrder inv_step.
Proof.
  split.
  - intros w. split; [apply keeps_refl | auto].
  - intros a b c [Hk1 H1] [Hk2 H2]. split; [exact (keeps_trans _ _ _ Hk1 Hk2) | auto].
Qed.
#[local] Existing Instance inv_step_preorder.

Lemma frame_inv_step w w' : frame w w' -> inv_step w w'.
Proof.
  intros [Hm Hk]. split; [exact Hk|].
  intros [Ha Hs]. split; [by rewrite Hm|].
  intros callID sessionID Hc. rewrite Hm in Hc. apply Hk. eauto.
Qed.

Lemma inv_step_of_frame {A} (m : M A) : preserves frame m -> preserves inv_step m.
Proof. intros H w. apply frame_inv_step, H. Qed.

(** Removing a call from the three maps keeps the invariant. *)
Lemma inv_delete callID w w' :
  keeps w w' ->
  mgr w' = agentmgr.set_maps (delete callID (agents (mgr w)))
             (delete callID (clients (mgr w)))
             (delete callID (cancels (mgr w))) (mgr w) ->
  inv w -> inv w'.
Proof.
  intros Hk Hm [[Hc Hx] Hs]. split.
  - unfold maps_aligned. rewrite Hm. simpl. rewrite !dom_delete_L, <- Hc, <- Hx. done.
  - intros c s. rewrite Hm. simpl. intros [_ Hl]%lookup_delete_Some.
    apply Hk. eauto.
Qed.

(** Adding a call to the three maps, for a session with a row, keeps it. *)
Lemma inv_insert callID sessionID client ctx w w' :
  keeps w w' ->
  is_Some (sessions (db w') !! sessionID) ->
  mgr w' = agentmgr.set_maps (<[callID := sessionID]> (agents (mgr w)))
             (<[callID := client]> (clients (mgr w)))
             (<[callID := ctx]> (cancels (mgr w))) (mgr w) ->
  inv w -> inv w'.
Proof.
  intros Hk Hrow Hm [[Hc Hx] Hs]. split.
  - unfold maps_aligned. rewrite Hm. simpl. rewrite !dom_insert_L, <- Hc, <- Hx. done.
  - intros c s. rewrite Hm. simpl. intros [[-> ->]|[_ Hl]]%lookup_insert_Some.
    + exact Hrow.
    + apply Hk. eauto.
Qed.

Lemma SpawnAgent_inv_step callID : preserves inv_step (agentmgr.SpawnAgent callID).
Proof.
  intros w. pose proof (SpawnAgent_cases callID w) as [Hk H]. split; [exact Hk|].
  destruct (fst (agentmgr.SpawnAgent callID w)) as [[sessionID token]|e].
  - destruct H as (_ & Hrow & client & ctx & Hm). by eapply inv_insert.
  - intros Hi. apply (frame_inv_step w); [by split | exact Hi].
Qed.

Lemma delete_entries_run callID w :
  agentmgr.delete_entries callID w =
  (tt, with_mgr (fun m =>
         agentmgr.set_maps (delete callID (agents m)) (delete callID (clients m))
           (delete callID (cancels m)) m) w).
Proof. reflexivity. Qed.

(** [StopAgent] removes the call from the three maps, whatever it returns. *)
Lemma StopAgent_mgr callID w :
  let w' := snd (agentmgr.StopAgent callID w) in
  keeps w w' /\
  mgr w' = agentmgr.set_maps (delete callID (agents (mgr w)))
             (delete callID (clients (mgr w)))
             (delete callID (cancels (mgr w))) (mgr w).
Proof.
  intros w'. subst w'. unfold agentmgr.StopAgent.
  rewrite bind_run. cbn [get fst snd].
  rewrite bind_run, delete_entries_run. cbn [fst snd].
  set (w1 := with_mgr _ w).
  assert (keeps w w1) as Hk1 by (split; [done | auto]).
  destruct (cancels (mgr w) !! callID) as [ctx|]; [| cbn; done].
  rewrite bind_run. cbn [modify fst snd].
  set (w2 := with_ctxs _ w1).
  assert (frame w1 w2) as H2 by (split; [done | split; [done | auto]]).
  rewrite bind_run.
  assert (preserves frame
            (match clients (mgr w) !! callID with
             | Some a => livekitclient.Disconnect a;; ret tt
             | None => ret tt
             end)) as Hd.
  { destruct (clients (mgr w) !! callID);
      repeat first [ apply Disconnect_frame | progress frame_tac ]. }
  specialize (Hd w2).
  destruct ((match clients (mgr w) !! callID with
             | Some a => livekitclient.Disconnect a;; ret tt
             | None => ret tt
             end) w2) as [[] w3]. cbn [fst snd] in *.
  run_with (store.UpdateSessionStatus (default "" (agents (mgr w) !! callID)) "ended")
           (UpdateSessionStatus_store_only (default "" (agents (mgr w) !! callID)) "ended")
           r4 w4 Hs.
  apply store_only_frame in Hs. cbn.
  assert (frame w1 w4) as [Hm Hk] by (trans w2; [done|]; trans w3; done).
  split; [exact (keeps_trans _ _ _ Hk1 Hk) | exact Hm].
Qed.

Lemma StopAgent_inv_step callID : preserves inv_step (agentmgr.StopAgent callID).
Proof.
  intros w. pose proof (StopAgent_mgr callID w) as [Hk Hm]. split; [exact Hk|].
  by apply inv_delete with callID.
Qed.

Lemma delete_entries_inv_step callID : preserves inv_step (agentmgr.delete_entries callID).
Proof.
  intros w. rewrite delete_entries_run. cbn [snd].
  assert (keeps w (with_mgr (fun m =>
            agentmgr.set_maps (delete callID (agents m)) (delete callID (clients m))
              (delete callID (cancels m)) m) w)) as Hk by (split; [done | auto]).
  split; [exact Hk|]. by apply inv_delete with callID.
Qed.

Lemma agent_connect_inv_step tid : preserves inv_step (agentmgr.agent_connect tid).
Proof.
  unfold agentmgr.agent_connect.
  apply preserves_bind; [apply _ | apply preserves_get, _ |]. intros w.
  destruct (tasks w !! tid) as [[callID sessionID roomClient ctx []]|];
    try (apply preserves_ret, _).
  apply preserves_bind; [apply _ | apply inv_step_of_frame, Connect_frame |].
  intros [|e].
  - apply inv_step_of_frame. frame_tac.
  - apply preserves_bind; [apply _ | apply inv_step_of_frame; frame_tac |]. intros _.
    apply preserves_bind; [apply _ | apply delete_entries_inv_step |]. intros _.
    apply inv_step_of_frame. frame_tac.
Qed.

(** Proves [preserves inv_step m] for an [m] built from the operations
    above. *)
Ltac inv_step_tac :=
  repeat first
    [ apply SpawnAgent_inv_step
    | apply StopAgent_inv_step
    | apply preserves_ret; [typeclasses eauto]
    | apply preserves_get; [typeclasses eauto]
    | apply inv_step_of_frame;
      first [ apply frame_of_store_only;
              first [ apply UpdateSessionStatus_store_only
                    | apply UpdateCallStatus_store_only
                    | apply FindSessionByIdentity_store_only
                    | apply QuerySession_store_only ]
            | apply frame_modify; [intros ?; reflexivity ..] ]
    | apply preserves_bind; [typeclasses eauto | | intros ?]
    | progress (unfold emit, logf)
    | match goal with
      | |- preserves _ (match ?x with _ => _ end) => destruct x
      | |- preserves _ (if ?x then _ else _) => destruct x
      | |- preserves _ (let (_, _) := ?x in _) => destruct x
      end ].

Lemma webhook_inv_step r : preserves inv_step (server.webhook_livekit r).
Proof.
  unfold server.webhook_livekit, server.on_participant_joined,
    server.on_participant_left, server.on_room_ended, server.is_caller,
    server.Unmarshal_map.
  inv_step_tac.
Qed.

Lemma run_op_inv_step o w : inv_step w (run_op o w).
Proof.
  destruct o; simpl.
  - apply SpawnAgent_inv_step.
  - apply StopAgent_inv_step.
  - apply agent_connect_inv_step.
  - apply frame_inv_step, agent_done_frame.
  - apply frame_inv_step, CreateCall_frame.
  - apply frame_inv_step, ProcessIncomingAudio_frame.
  - apply frame_inv_step, processAudioChunk_frame.
  - apply webhook_inv_step.
Qed.

Lemma reachable_inv w : reachable w -> inv w.
Proof.
  induction 1 as [e tables c t l s | w o _ IH].
  - split.
    + split; reflexivity.
    + intros callID sessionID. cbn. rewrite lookup_empty. done.
  - by apply (run_op_inv_step o w).
Qed.

(** ** C10: the three maps hold the same calls *)

(** C10. In every world the system can reach from its start, through any
    sequence of [SpawnAgent] and [StopAgent] calls and of the other
    operations, the maps [agents], [clients] and [cancels] have the same
    set of call identifiers. *)
Theorem maps_stay_aligned (w : World) :
  reachable w ->
  dom (agents (mgr w)) = dom (clients (mgr w)) /\
  dom (agents (mgr w)) = dom (cancels (mgr w)).
Proof. intros H. apply (reachable_inv w H). Qed.

(** ** C2: a second [SpawnAgent] for the same call *)


Lemma same_entries_refl callID m : same_entries callID m m.
Proof. by repeat split. Qed.

Lemma kept_preorder callID : PreOrder (kept callID).
Proof.
  split.
  - intros w _. apply same_entries_refl.
  - intros a b c Hab Hbc Ha. destruct (Hab Ha) as (H1 & H2 & H3).
    destruct Hbc as (H4 & H5 & H6); [by rewrite H1|].
    repeat split; congruence.
Qed.
#[local] Existing Instance kept_preorder.



















(** ** C4: [StopAgent] twice in a row *)

Lemma StopAgent_unregistered callID w :
  cancels (mgr w) !! callID = None ->
  fst (agentmgr.StopAgent callID w) = Err ("no agent for call " +:+ callID).
Proof. intros H. unfold agentmgr.StopAgent. unfold_M. simpl. rewrite H. reflexivity. Qed.

(** After [StopAgent] the call has no entry in any of the three maps. *)
Lemma StopAgent_clears callID w :
  let w1 := snd (agentmgr.StopAgent callID w) in
  agents (mgr w1) !! callID = None /\
  clients (mgr w1) !! callID = None /\
  cancels (mgr w1) !! callID = None.
Proof.
  intros w1. subst w1. pose proof (StopAgent_mgr callID w) as [_ ->]. simpl.
  rewrite !lookup_delete_eq. done.
Qed.

(** C4. Whatever the first [StopAgent] found, after it the call has no
    entry in any of the three maps, and a second [StopAgent] for the call
    returns the error that there is no agent for it. *)
Theorem StopAgent_twice (w : World) (callID : string) :
  let w1 := snd (agentmgr.StopAgent callID w) in
  agents (mgr w1) !! callID = None /\
  clients (mgr w1) !! callID = None /\
  cancels (mgr w1) !! callID = None /\
  fst (agentmgr.StopAgent callID w1) = Err ("no agent for call " +:+ callID).
Proof.
  intros w1. subst w1.
  destruct (StopAgent_clears callID w) as (Ha & Hc & Hx).
  repeat split; try assumption. by apply StopAgent_unregistered.
Qed.

(** ** C3: what [StopAgent] leaves behind *)

Lemma Disconnect_quiet a w :
  let w' := snd (livekitclient.Disconnect a w) in
  db w' = db w /\ tick w' = tick w /\ env w' = env w /\ mgr w' = mgr w.
Proof.
  unfold livekitclient.Disconnect. unfold_M. simpl.
  destruct (rooms w !! a) as [rc|]; simpl; [|done].
  destruct (rc_pc rc), (rc_conn rc); simpl; done.
Qed.

Lemma UpdateSessionStatus_ok sessionID status row w :
  sessions (db w) !! sessionID = Some row ->
  env_fault (env w) (tick w) = false ->
  store.UpdateSessionStatus sessionID status w =
    (Ok tt,
     with_db (fun _ => MkDB (calls (db w))
                (<[sessionID := set_status status row]> (sessions (db w))))
       (with_tick S w)).
Proof.
  intros Hrow Hf. unfold store.UpdateSessionStatus. rewrite bind_run.
  erewrite Exec_ok; [| exact Hf | simpl; rewrite Hrow; reflexivity ].
  reflexivity.
Qed.

Lemma UpdateSessionStatus_fault sessionID status w :
  env_fault (env w) (tick w) = true ->
  store.UpdateSessionStatus sessionID status w =
    (Err "driver: bad connection", with_tick S w).
Proof.
  intros Hf. unfold store.UpdateSessionStatus, store.Exec. unfold_M. simpl.
  by rewrite Hf.
Qed.

(** [StopAgent] for a call that has its entries: it returns nil whatever
    the update of the status returns, and its last step is that update,
    made on the tables as they were. *)
Lemma StopAgent_run callID sessionID ctx w :
  agents (mgr w) !! callID = Some sessionID ->
  cancels (mgr w) !! callID = Some ctx ->
  exists w3,
    db w3 = db w /\ tick w3 = tick w /\ env w3 = env w /\
    agentmgr.StopAgent callID w =
      (Ok tt, snd (store.UpdateSessionStatus sessionID "ended" w3)).
Proof.
  intros Hag Hctx. unfold agentmgr.StopAgent.
  rewrite bind_run; cbn [get fst snd].
  rewrite bind_run, delete_entries_run; cbn [fst snd].
  rewrite Hctx, Hag; cbn [default].
  rewrite bind_run; cbn [modify fst snd].
  rewrite bind_run.
  match goal with
  | |- context [(match ?c with Some a => _ | None => _ end) ?w2] =>
      assert (let w3 := snd ((match c with
                              | Some a => livekitclient.Disconnect a;; ret tt
                              | None => ret tt
                              end) w2) in
              db w3 = db w /\ tick w3 = tick w /\ env w3 = env w) as Hd
        by (destruct c as [a|];
            [ pose proof (Disconnect_quiet a w2) as (H1 & H2 & H3 & _);
              cbv zeta; rewrite bind_run; cbn [ret fst snd];
              rewrite H1, H2, H3; repeat split
            | repeat split ]);
      destruct ((match c with
                 | Some a => livekitclient.Disconnect a;; ret tt
                 | None => ret tt
                 end) w2) as [[] w3]
  end.
  cbn [fst snd] in *. destruct Hd as (Hdb & Htick & Henv).
  exists w3. repeat (split; [assumption|]).
  rewrite bind_run. reflexivity.
Qed.

(** C3, as stated, fails: [StopAgent] discards the error of the
    update.  In a world the system reaches, with an agent registered for
    the call and a driver that fails the request of the update,
    [StopAgent] returns nil and removes the call's entries, and the stored
    status of the agent's session is still active. *)
Lemma StopAgent_after_store_failure :
  let w := run_op (OpSpawnAgent "c1")
             (init (sample.outside_fault_at 8) (MkDB ∅ ∅) sample.config None None None) in
  let w' := snd (agentmgr.StopAgent "c1" w) in
  agents (mgr w) !! "c1" = Some "000102030405060708090a0b" /\
  fst (agentmgr.StopAgent "c1" w) = Ok tt /\
  agents (mgr w') !! "c1" = None /\
  sess_status <$> sessions (db w') !! "000102030405060708090a0b" = Some "active".
Proof. vm_compute. auto. Qed.

(** C3, amended. In a world the system can reach, for a call with a
    registered agent, [StopAgent] returns nil and leaves no entry for the
    call in the registry.  When the driver serves the update of the
    status, the agent session's stored status is ended; when it fails it,
    the error is dropped and the sessions are as they were. *)
Theorem StopAgent_ends_session (w : World) (callID sessionID : string) :
  reachable w ->
  agents (mgr w) !! callID = Some sessionID ->
  let w' := snd (agentmgr.StopAgent callID w) in
  fst (agentmgr.StopAgent callID w) = Ok tt /\
  agents (mgr w') !! callID = None /\
  clients (mgr w') !! callID = None /\
  cancels (mgr w') !! callID = None /\
  (env_fault (env w) (tick w) = false ->
   sess_status <$> sessions (db w') !! sessionID = Some "ended") /\
  (env_fault (env w) (tick w) = true -> db w' = db w).
Proof.
  intros Hreach Hag w'. subst w'.
  destruct (reachable_inv w Hreach) as [[_ Hx] Hrec].
  destruct (Hrec _ _ Hag) as [row Hrow].
  assert (is_Some (cancels (mgr w) !! callID)) as [ctx Hctx].
  { apply elem_of_dom. rewrite <- Hx. apply elem_of_dom. eauto. }
  destruct (StopAgent_clears callID w) as (Ha & Hc & Hca).
  destruct (StopAgent_run callID sessionID ctx w Hag Hctx)
    as (w3 & Hdb & Htick & Henv & Hrun).
  split; [by rewrite Hrun|].
  split; [exact Ha | split; [exact Hc | split; [exact Hca|]]].
  rewrite Hrun. cbn [snd]. split; intros Hf.
  - erewrite UpdateSessionStatus_ok;
      [| rewrite Hdb; exact Hrow | rewrite Henv, Htick; exact Hf ].
    cbn. rewrite Hdb. rewrite lookup_insert_eq. reflexivity.
  - rewrite UpdateSessionStatus_fault by (rewrite Henv, Htick; exact Hf).
    cbn. exact Hdb.
Qed.

(** ** C5: no token, no agent *)

(** C5. For a call with no registered agent, when the LiveKit URL or the
    API key or secret is empty, [SpawnAgent] returns an error and leaves
    the manager and the goroutines as they were, so that no agent is
    registered for the call; once the session row is created, that error
    is the missing URL or the token issuer's refusal. *)
Theorem SpawnAgent_token_failure (w : World) (callID : string) :
  let lk := VendorSettings (cfg (mgr w)) !! "livekit" in
  agents (mgr w) !! callID = None ->
  agentmgr.setting lk "url" = "" \/ agentmgr.setting lk "api_key" = "" \/
    agentmgr.setting lk "api_secret" = "" ->
  let w' := snd (agentmgr.SpawnAgent callID w) in
  mgr w' = mgr w /\ tasks w' = tasks w /\
  agents (mgr w') !! callID = None /\
  exists e,
    fst (agentmgr.SpawnAgent callID w) = Err e /\
    (is_ok (fst (store.CreateSession callID "ai-agent" "agent" "new" w)) = true ->
     e = "livekit url not configured" \/ e = "livekit api key/secret required").
Proof.
  intros lk Hag Hcfg w'. subst w'.
  assert (let w' := snd (agentmgr.SpawnAgent callID w) in
          mgr w' = mgr w /\ tasks w' = tasks w /\
          exists e,
            fst (agentmgr.SpawnAgent callID w) = Err e /\
            (is_ok (fst (store.CreateSession callID "ai-agent" "agent" "new" w)) = true ->
             e = "livekit url not configured" \/ e = "livekit api key/secret required"))
    as (Hm & Ht & He).
  { unfold agentmgr.SpawnAgent.
    rewrite !(bind_run get). cbn [get fst snd]. rewrite Hag.
    rewrite !(bind_run (store.CreateSession callID "ai-agent" "agent" "new")).
    pose proof (CreateSession_store_only callID "ai-agent" "agent" "new" w)
      as (Hm1 & _ & _ & Ht1 & _).
    destruct (store.CreateSession callID "ai-agent" "agent" "new" w) as [[sessionID|e] w1];
      cbn [fst snd is_ok] in *.
    2: { cbn. split; [done|]. split; [done|]. exists e. split; [done|]. discriminate. }
    fold lk. destruct (bool_decide (agentmgr.setting lk "url" = "")) eqn:Hurl.
    { cbn. split; [done|]. split; [done|]. eexists. split; [reflexivity|]. auto. }
    apply bool_decide_eq_false in Hurl.
    destruct Hcfg as [Hu | Hks]; [done|].
    unfold livekit.GenerateAccessToken.
    assert (bool_decide (agentmgr.setting lk "api_key" = "")
            || bool_decide (agentmgr.setting lk "api_secret" = "") = true) as ->.
    { destruct Hks as [Hk | Hs].
      - rewrite (bool_decide_eq_true_2 _ Hk). reflexivity.
      - rewrite (bool_decide_eq_true_2 _ Hs). apply orb_true_r. }
    cbn. split; [done|]. split; [done|]. eexists. split; [reflexivity|]. auto. }
  split; [exact Hm|]. split; [exact Ht|]. split; [by rewrite Hm|]. exact He.
Qed.

(** ** The audio pipeline *)

(** What [ProcessIncomingAudio] does once [Recognize] has answered: the
    confidence plays no part. *)
Lemma ProcessIncomingAudio_run w sessionID audio s transcript confidence :
  stt (mgr w) = Some s ->
  Recognize s audio = Ok (transcript, confidence) ->
  let w' := snd (agentmgr.ProcessIncomingAudio sessionID audio w) in
  let generated :=
    match llm (mgr w) with
    | Some l => match Generate l transcript with Ok r => r | Err _ => "" end
    | None => ""
    end in
  let reply :=
    if bool_decide (generated = "") then agentmgr.fallback_reply else generated in
  fst (agentmgr.ProcessIncomingAudio sessionID audio w) = Ok transcript /\
  trace w' =
    trace w ++ [EvRecognize audio] ++
    match llm (mgr w) with Some _ => [EvGenerate transcript] | None => [] end ++
    match tts (mgr w) with
    | None => []
    | Some t =>
        EvSpeak reply ::
        match Speak t reply with
        | Ok audioOut =>
            if (0 <? length audioOut)%nat then
              [ EvMkdirAll "out/agents";
                EvWriteFile "out/agents"
                  ("agent-reply-" +:+ sessionID +:+ "-" +:+
                   pretty (env_clock (env w) (tick w)) +:+ ".wav") audioOut ]
            else []
        | Err _ => []
        end
    end.
Proof.
  intros Hs Hr. unfold agentmgr.ProcessIncomingAudio, call_Recognize,
    call_Generate, call_Speak.
  unfold_M. simpl. rewrite Hs. simpl. rewrite Hr. simpl.
  destruct (llm (mgr w)) as [l|]; simpl;
    [destruct (Generate l transcript) as [r|e]; simpl |].
  all: destruct (tts (mgr w)) as [t|]; simpl;
    [| split; [done | by rewrite <- ?app_assoc]].
  all: match goal with
       | |- context [Speak ?t ?x] => destruct (Speak t x) as [out|e']; simpl
       end.
  all: try match goal with
       | |- context [(0 <? length ?o)%nat] => destruct (0 <? length o)%nat; simpl
       end.
  all: split; [done | by rewrite <- ?app_assoc].
Qed.

(** A window whose confidence is below one half, or whose transcript is
    empty, is dropped after [Recognize]: nothing else is called, published
    or logged. *)
Lemma processAudioChunk_dropped w a rc audio s transcript confidence :
  rooms w !! a = Some rc ->
  audio <> [] ->
  rc_stt rc = Some s ->
  Recognize s audio = Ok (transcript, confidence) ->
  lt_half confidence || bool_decide (transcript = "") = true ->
  livekitclient.processAudioChunk a audio w =
    (tt, with_trace (fun t => t ++ [EvRecognize audio]) w).
Proof.
  intros Hrc Ha Hs Hr Hlow. unfold livekitclient.processAudioChunk, call_Recognize.
  unfold_M. simpl. rewrite Hrc, Hs. simpl.
  destruct audio as [|b audio]; [done|]. simpl. rewrite Hr. simpl.
  rewrite Hlow. reflexivity.
Qed.

(** A window that passes the gate and whose [Generate] fails is answered
    with the streaming path's own fixed reply. *)
Lemma processAudioChunk_generate_fails w a rc audio s transcript confidence l e t tr :
  rooms w !! a = Some rc ->
  audio <> [] ->
  rc_stt rc = Some s ->
  Recognize s audio = Ok (transcript, confidence) ->
  lt_half confidence = false ->
  transcript <> "" ->
  rc_llm rc = Some l ->
  Generate l transcript = Err e ->
  rc_tts rc = Some t ->
  rc_audioTrack rc = Some tr ->
  exists rest,
    trace (snd (livekitclient.processAudioChunk a audio w)) =
      trace w ++
      [ EvRecognize audio; EvLog "User said: %s (confidence: %.2f)";
        EvGenerate transcript; EvLog "LLM error: %v"; EvLog "Agent response: %s";
        EvSpeak "I'm sorry, I didn't catch that." ] ++ rest.
Proof.
  intros Hrc Ha Hs Hr Hc Ht Hl Hg Htts Htr.
  unfold livekitclient.processAudioChunk, call_Recognize, call_Generate, call_Speak.
  rewrite bind_run. cbn [get fst snd]. rewrite Hrc, Hs, Hl, Htts, Htr.
  destruct audio as [|b audio]; [done|].
  rewrite bool_decide_eq_false_2 by done.
  unfold_M. cbn -[livekitclient.publishAudio]. rewrite Hr.
  cbn -[livekitclient.publishAudio]. rewrite Hc, bool_decide_eq_false_2 by done.
  cbn -[livekitclient.publishAudio]. rewrite Hg. cbn -[livekitclient.publishAudio].
  set (w5 := with_trace _ _).
  assert (trace w5 = trace w ++
      [ EvRecognize (b :: audio); EvLog "User said: %s (confidence: %.2f)";
        EvGenerate transcript; EvLog "LLM error: %v"; EvLog "Agent response: %s";
        EvSpeak "I'm sorry, I didn't catch that." ]) as Hw5.
  { subst w5. cbn. rewrite <- ?app_assoc. reflexivity. }
  assert (forall cs w1, exists rest,
            trace (snd (livekitclient.write_samples tr cs w1)) = trace w1 ++ rest) as Hws.
  { induction cs as [|c cs IH]; intros w1; simpl.
    - exists []. by rewrite app_nil_r.
    - unfold_M. cbn. destruct (WriteSample tr c).
      + destruct (IH (with_trace (fun t0 => t0 ++ [EvWriteSample c]) w1)) as [rest ->].
        cbn. exists (EvWriteSample c :: rest). by rewrite <- app_assoc.
      + cbn. eauto. }
  destruct (Speak t "I'm sorry, I didn't catch that.") as [audioData|e'].
  - unfold livekitclient.publishAudio. rewrite Htr.
    destruct (Hws (livekitclient.chunks (length audioData) 3200 audioData) w5)
      as [rest Hrest].
    destruct (livekitclient.write_samples tr _ w5) as [[|e''] w6]; cbn in *.
    + exists rest. rewrite Hrest, Hw5. by rewrite <- app_assoc.
    + exists (rest ++ [EvLog "Failed to publish audio: %v"]).
      rewrite Hrest, Hw5. by rewrite <- ?app_assoc.
  - cbn. exists [EvLog "TTS error: %v"]. by rewrite <- ?app_assoc.
Qed.

(** ** C1: the low-confidence gate *)

(** C1, as stated, fails for [ProcessIncomingAudio]: with a recognizer that
    returns the transcript hello at confidence 0.25, a working LLM and a
    working TTS, [ProcessIncomingAudio] returns the transcript and has
    called [Generate] and [Speak] and written the audio artifact. *)
Lemma ProcessIncomingAudio_ignores_confidence :
  let w := sample.start sample.config (Some sample.tts_up) (Some sample.llm_up)
             (Some (sample.hears sample.quarter32)) in
  Recognize (sample.hears sample.quarter32) sample.audio = Ok ("hello", sample.quarter32) /\
  lt_half sample.quarter32 = true /\
  fst (agentmgr.ProcessIncomingAudio "s1" sample.audio w) = Ok "hello" /\
  trace (snd (agentmgr.ProcessIncomingAudio "s1" sample.audio w)) =
    [ EvRecognize sample.audio;
      EvGenerate "hello";
      EvSpeak "You said: hello";
      EvMkdirAll "out/agents";
      EvWriteFile "out/agents" "agent-reply-s1-1700000000.wav" (bytes_of "You said: hello") ].
Proof. vm_compute. auto. Qed.

(** C1, amended. When [Recognize] returns a transcript that is not empty
    with a confidence below 0.5 and no error: the streaming path
    ([processAudioChunk]) calls neither [Generate] nor [Speak], publishes
    nothing and logs nothing, the window is dropped; [ProcessIncomingAudio]
    does not look at the confidence: it returns the transcript, and what it
    has done is exactly this: [Recognize], then [Generate] when an LLM is
    configured, then, when a TTS is configured, [Speak] of the reply (the
    fixed reply when there is no LLM, when [Generate] fails or when its
    reply is empty) and, when [Speak] returns audio that is not empty, the
    directory and the audio file. *)
Theorem low_confidence_gate (w : World) (sessionID : string) (a : nat)
    (rc : RoomClient) (audio : list byte) (s : STT) (transcript : string)
    (confidence : float32) :
  Recognize s audio = Ok (transcript, confidence) ->
  transcript <> "" ->
  lt_half confidence = true ->
  (rooms w !! a = Some rc -> rc_stt rc = Some s -> audio <> [] ->
   livekitclient.processAudioChunk a audio w =
     (tt, with_trace (fun t => t ++ [EvRecognize audio]) w)) /\
  (stt (mgr w) = Some s ->
   let w' := snd (agentmgr.ProcessIncomingAudio sessionID audio w) in
   let generated :=
     match llm (mgr w) with
     | Some l => match Generate l transcript with Ok r => r | Err _ => "" end
     | None => ""
     end in
   let reply :=
     if bool_decide (generated = "")
     then "I heard you. Let me know if you'd like help." else generated in
   fst (agentmgr.ProcessIncomingAudio sessionID audio w) = Ok transcript /\
   trace w' =
     trace w ++ [EvRecognize audio] ++
     match llm (mgr w) with Some _ => [EvGenerate transcript] | None => [] end ++
     match tts (mgr w) with
     | None => []
     | Some t =>
         EvSpeak reply ::
         match Speak t reply with
         | Ok audioOut =>
             if (0 <? length audioOut)%nat then
               [ EvMkdirAll "out/agents";
                 EvWriteFile "out/agents"
                   ("agent-reply-" +:+ sessionID +:+ "-" +:+
                    pretty (env_clock (env w) (tick w)) +:+ ".wav") audioOut ]
             else []
         | Err _ => []
         end
     end).
Proof.
  intros Hr Ht Hlow. split.
  - intros Hrc Hs Ha. eapply processAudioChunk_dropped; eauto.
    by rewrite Hlow.
  - intros Hs. exact (ProcessIncomingAudio_run w sessionID audio s transcript confidence Hs Hr).
Qed.

(** ** C9: a failed [Generate] *)

(** C9. When [Recognize] succeeds and [Generate] fails,
    [ProcessIncomingAudio] returns the transcript with no error, having
    recognized, tried to generate and then, when a TTS is configured, spoken
    its fixed fallback reply (and written the audio, when there is some);
    the streaming path, for a window that passes the gate, speaks its own
    fixed reply. *)
Theorem generate_failure_falls_back (w : World) (sessionID : string)
    (audio : list byte) (s : STT) (transcript : string) (confidence : float32)
    (l : LLM) (e : error) :
  Recognize s audio = Ok (transcript, confidence) ->
  Generate l transcript = Err e ->
  (stt (mgr w) = Some s -> llm (mgr w) = Some l ->
   let w' := snd (agentmgr.ProcessIncomingAudio sessionID audio w) in
   let reply := "I heard you. Let me know if you'd like help." in
   fst (agentmgr.ProcessIncomingAudio sessionID audio w) = Ok transcript /\
   trace w' =
     trace w ++ [EvRecognize audio; EvGenerate transcript] ++
     match tts (mgr w) with
     | None => []
     | Some t =>
         EvSpeak reply ::
         match Speak t reply with
         | Ok audioOut =>
             if (0 <? length audioOut)%nat then
               [ EvMkdirAll "out/agents";
                 EvWriteFile "out/agents"
                   ("agent-reply-" +:+ sessionID +:+ "-" +:+
                    pretty (env_clock (env w) (tick w)) +:+ ".wav") audioOut ]
             else []
         | Err _ => []
         end
     end) /\
  (forall a rc t tr,
     rooms w !! a = Some rc -> audio <> [] -> rc_stt rc = Some s ->
     lt_half confidence = false -> transcript <> "" ->
     rc_llm rc = Some l -> rc_tts rc = Some t -> rc_audioTrack rc = Some tr ->
     exists rest,
       trace (snd (livekitclient.processAudioChunk a audio w)) =
         trace w ++
         [ EvRecognize audio; EvLog "User said: %s (confidence: %.2f)";
           EvGenerate transcript; EvLog "LLM error: %v"; EvLog "Agent response: %s";
           EvSpeak "I'm sorry, I didn't catch that." ] ++ rest).
Proof.
  intros Hr Hg. split.
  - intros Hs Hl w' reply. subst w' reply.
    destruct (ProcessIncomingAudio_run w sessionID audio s transcript confidence Hs Hr)
      as [Hfst Htrace].
    split; [exact Hfst|]. rewrite Htrace, Hl, Hg. reflexivity.
  - intros a rc t tr Hrc Ha Hs Hc Ht Hl Htts Htr.
    eapply processAudioChunk_generate_fails; eauto.
Qed.

(** ** C6: the LiveKit webhook *)

Lemma Sum256_length data : length (sha256.Sum256 data) = 32%nat.
Proof.
  unfold sha256.Sum256.
  destruct (sha256.blocks _ _ _) as [|a [|b [|c [|d [|e [|f [|g [|h [|]]]]]]]]];
    reflexivity.
Qed.

Lemma hmac_Sum_length key msg : length (hmac.Sum key msg) = 32%nat.
Proof. unfold hmac.Sum. apply Sum256_length. Qed.

Lemma hex_nonempty src : src <> [] -> hex.EncodeToString src <> "".
Proof. destruct src; [done | discriminate]. Qed.

Lemma base64_nonempty src : src <> [] -> base64.EncodeToString src <> "".
Proof. destruct src as [|a [|b [|c rest]]]; [done | discriminate ..]. Qed.

Lemma hmac_Sum_nonempty key msg : hmac.Sum key msg <> [].
Proof.
  intros H. pose proof (hmac_Sum_length key msg) as Hl. rewrite H in Hl. discriminate.
Qed.

(** [hmac.Equal] on the bytes of two strings decides their equality. *)
Lemma Equal_strings a b :
  hmac.Equal (bytes_of a) (bytes_of b) = bool_decide (a = b).
Proof.
  unfold hmac.Equal, bytes_of. apply bool_decide_ext. split; [|by intros ->].
  intros H. rewrite <- (string_of_list_byte_of_string a),
    <- (string_of_list_byte_of_string b). by rewrite H.
Qed.

(** What the signature check answers. *)
Lemma verify_signature_spec secret h body :
  let mac := hmac.Sum (bytes_of secret) body in
  let sig := server.signature_header h in
  (sig = hex.EncodeToString mac \/ sig = base64.EncodeToString mac ->
   server.verify_signature secret h body = None) /\
  (sig <> hex.EncodeToString mac -> sig <> base64.EncodeToString mac ->
   exists msg, server.verify_signature secret h body =
                 Some (http.Error msg http.StatusUnauthorized)).
Proof.
  intros mac sig. unfold server.verify_signature. fold sig. fold mac.
  rewrite !Equal_strings.
  pose proof (hex_nonempty mac (hmac_Sum_nonempty _ _)) as Hhex.
  pose proof (base64_nonempty mac (hmac_Sum_nonempty _ _)) as Hb64.
  split.
  - intros Hsig. rewrite bool_decide_eq_false_2 by (intros E; destruct Hsig; congruence).
    destruct Hsig as [<- | <-].
    + by rewrite bool_decide_eq_true_2.
    + destruct (bool_decide (hex.EncodeToString mac = sig)); [done|].
      by rewrite bool_decide_eq_true_2.
  - intros H1 H2. destruct (bool_decide (sig = "")); [eauto|].
    rewrite !bool_decide_eq_false_2 by congruence. simpl. eauto.
Qed.

Lemma Unmarshal_map_run body w :
  server.Unmarshal_map body w =
    (match env_json (env w) body with
     | Err e => Err e
     | Ok (JObject m) => Ok m
     | Ok JNull => Ok ∅
     | Ok _ => Err "json: cannot unmarshal into Go value of type map[string]interface {}"
     end, w).
Proof.
  unfold server.Unmarshal_map. unfold_M.
  destruct (env_json (env w) body) as [[| | | | |evt]|e]; reflexivity.
Qed.

(** C6. For a POST to the webhook whose body could be read, when the
    LiveKit secret is configured: if the signature header
    ([X-LiveKit-Signature], else [Livekit-Signature]) is neither the hex
    nor the base64 encoding of the HMAC-SHA256 of the body under the
    secret, the answer is 401; if it is one of them, a body that does not
    parse as JSON (or is JSON other than an object or null) is answered 400,
    and any other, whatever the event, 204 with nothing written. *)
Theorem webhook_answers (w : World) (r : http.Request) (body : list byte) :
  let secret :=
    agentmgr.setting (VendorSettings (cfg (mgr w)) !! "livekit") "api_secret" in
  let mac := hmac.Sum (bytes_of secret) body in
  let sig := server.signature_header (http.Headers r) in
  let resp := fst (server.webhook_livekit r w) in
  http.Method r = "POST" ->
  http.Body r = Ok body ->
  secret <> "" ->
  (sig <> hex.EncodeToString mac -> sig <> base64.EncodeToString mac ->
   http.StatusCode resp = 401) /\
  (sig = hex.EncodeToString mac \/ sig = base64.EncodeToString mac ->
   match env_json (env w) body with
   | Ok (JObject _) | Ok JNull => resp = http.MkResponse 204 ""
   | _ => http.StatusCode resp = 400
   end).
Proof.
  intros secret mac sig resp Hm Hb Hsecret. subst resp.
  unfold server.webhook_livekit. rewrite Hm, Hb. cbn [bool_decide negb].
  rewrite bool_decide_eq_true_2 by done. cbn [negb].
  rewrite bind_run. cbn [get fst snd]. fold secret.
  rewrite (bool_decide_eq_false_2 (secret = "")) by done.
  destruct (verify_signature_spec secret (http.Headers r) body) as [Hpass Hfail].
  fold mac sig in Hpass, Hfail. split.
  - intros H1 H2. destruct (Hfail H1 H2) as [msg ->]. reflexivity.
  - intros Hsig. rewrite (Hpass Hsig). rewrite bind_run, Unmarshal_map_run.
    cbn [fst snd].
    destruct (env_json (env w) body) as [[| | | | |evt]|e]; cbn [ret fst snd];
      try reflexivity.
    all: rewrite bind_run; reflexivity.
Qed.

(** ** Runs of the sample deployment *)

(** [CreateCall] on empty tables: both rows, under the first two random
    identifiers. *)
Example CreateCall_alice :
  let w := sample.start sample.config None None None in
  let w' := snd (store.CreateCall "alice" w) in
  fst (store.CreateCall "alice" w) =
    Ok ("000102030405060708090a0b", "1112131415161718191a1b1c") /\
  calls (db w') !! "000102030405060708090a0b" = Some (CallRow "alice" "new" 1700000003) /\
  sessions (db w') !! "1112131415161718191a1b1c" =
    Some (SessionRow "000102030405060708090a0b" "alice" "caller" "new" 1700000003 None).
Proof. vm_compute. auto. Qed.

Example CreateCall_no_caller :
  store.CreateCall "" (sample.start sample.config None None None) =
    (Err "caller_id required", sample.start sample.config None None None).
Proof. reflexivity. Qed.

(** With a driver that is down nothing is written. *)
Example CreateCall_driver_down :
  let w := init sample.outside_down (MkDB ∅ ∅) sample.config None None None in
  fst (store.CreateCall "alice" w) = Err "driver: bad connection" /\
  db (snd (store.CreateCall "alice" w)) = MkDB ∅ ∅.
Proof. vm_compute. auto. Qed.

(** When the second random identifier is already a session's, the INSERT of
    the session is refused after the INSERT of the call was accepted:
    [CreateCall] rolls back and the call row is not there. *)
Example CreateCall_session_id_taken :
  let taken := SessionRow "c0" "bob" "caller" "ended" 1600000000 None in
  let tables := MkDB ∅ {[ "1112131415161718191a1b1c" := taken ]} in
  let w := init sample.outside tables sample.config None None None in
  fst (store.CreateCall "alice" w) =
    Err "constraint failed: UNIQUE constraint failed: sessions.id" /\
  db (snd (store.CreateCall "alice" w)) = tables.
Proof. vm_compute. auto. Qed.

(** The goroutine's failed connect removes the call's entries and ends the
    session, with no [StopAgent]; a [SpawnAgent] after it succeeds again,
    with a new session. *)
Example SpawnAgent_after_failed_connect :
  let w1 := run [OpSpawnAgent "c1"; OpConnect 0] sample.start_offline in
  agents (mgr w1) !! "c1" = None /\
  sess_status <$> sessions (db w1) !! "000102030405060708090a0b" = Some "ended" /\
  fst (agentmgr.SpawnAgent "c1" w1) =
    Ok ("aaabacadaeafb0b1b2b3b4b5", "jwt:aaabacadaeafb0b1b2b3b4b5@c1").
Proof. vm_compute. auto. Qed.

(** The webhook: a base64 signature under the second header name passes, a
    wrong or a missing one is refused, and a signed [room_ended] event is
    answered like any other. *)
Example webhook_samples :
  let w := sample.start sample.config None None None in
  fst (server.webhook_livekit sample.signed_base64 w) = http.MkResponse 204 "" /\
  http.StatusCode (fst (server.webhook_livekit sample.badly_signed w)) = 401 /\
  http.StatusCode (fst (server.webhook_livekit (sample.post ∅ "{}") w)) = 401 /\
  fst (server.webhook_livekit
         (sample.post
            {[ "X-Livekit-Signature" :=
                 ["3dab15f852ca3ddd6a398e2d83ecd4ea582b4f9cf77d423ed4bb2c108b33ec51"] ]}
            "room_ended c1") w) = http.MkResponse 204 "".
Proof. vm_compute. auto. Qed.

(** A signed body that is not JSON is answered 400. *)
Example webhook_bad_body :
  let w := sample.start sample.config None None None in
  let body := "not json" in
  let r := sample.post
             {[ "X-Livekit-Signature" :=
                  [hex.EncodeToString (hmac.Sum (bytes_of "secret") (bytes_of body))] ]}
             body in
  http.StatusCode (fst (server.webhook_livekit r w)) = 400.
Proof. vm_compute. reflexivity. Qed.

(** A window heard at full confidence is answered and published; one whose
    [Generate] fails is answered with the fixed reply. *)
Example processAudioChunk_samples :
  let heard := Some (sample.hears sample.one32) in
  trace (snd (livekitclient.processAudioChunk 0 sample.audio
                (sample.with_client (Some sample.llm_up) heard))) =
    [ EvRecognize sample.audio; EvLog "User said: %s (confidence: %.2f)";
      EvGenerate "hello"; EvLog "Agent response: %s"; EvSpeak "You said: hello";
      EvWriteSample (bytes_of "You said: hello") ] /\
  trace (snd (livekitclient.processAudioChunk 0 sample.audio
                (sample.with_client (Some sample.llm_down) heard))) =
    [ EvRecognize sample.audio; EvLog "User said: %s (confidence: %.2f)";
      EvGenerate "hello"; EvLog "LLM error: %v"; EvLog "Agent response: %s";
      EvSpeak "I'm sorry, I didn't catch that.";
      EvWriteSample (bytes_of "I'm sorry, I didn't catch that.") ].
Proof. vm_compute. auto. Qed.

(** The confidence comparison: 0.25 is below one half, 0.5 and 1.0 and NaN
    are not. *)
Example lt_half_samples :
  lt_half sample.quarter32 = true /\ lt_half half32 = false /\
  lt_half sample.one32 = false /\ lt_half S754_nan = false.
Proof. vm_compute. auto. Qed.

(** ** The claims at the sample deployment *)

(** C8 on the session that [CreateCall] makes for alice. *)
Lemma token_round_trip_witness :
  let w := snd (store.CreateCall "alice"
                  (sample.start sample.config None None None)) in
  let sessionID := "1112131415161718191a1b1c" in
  is_Some (sessions (db w) !! sessionID) /\
  fst (store.GetSessionToken sessionID
         (snd (store.UpdateSessionToken sessionID "a.b.c" w))) = Ok "a.b.c".
Proof.
  assert (is_Some (sessions (db (snd (store.CreateCall "alice"
            (sample.start sample.config None None None))))
            !! "1112131415161718191a1b1c")) as H
    by (eexists; vm_compute; reflexivity).
  split; [exact H|].
  apply (token_round_trip _ _ "a.b.c" H); reflexivity.
Defined.

(** C1 (amended) on a process and a room client that hear hello at
    confidence 0.25: the window is dropped, the posted audio is answered. *)
Lemma low_confidence_gate_witness :
  let s := sample.hears sample.quarter32 in
  let w := sample.with_client (Some sample.llm_up) (Some s) in
  lt_half sample.quarter32 = true /\
  livekitclient.processAudioChunk 0 sample.audio w =
    (tt, with_trace (fun t => t ++ [EvRecognize sample.audio]) w) /\
  fst (agentmgr.ProcessIncomingAudio "s1" sample.audio w) = Ok "hello" /\
  trace (snd (agentmgr.ProcessIncomingAudio "s1" sample.audio w)) =
    [ EvRecognize sample.audio;
      EvGenerate "hello";
      EvSpeak "You said: hello";
      EvMkdirAll "out/agents";
      EvWriteFile "out/agents" "agent-reply-s1-1700000000.wav" (bytes_of "You said: hello") ].
Proof.
  split; [reflexivity|].
  destruct (low_confidence_gate
              (sample.with_client (Some sample.llm_up)
                 (Some (sample.hears sample.quarter32)))
              "s1" 0%nat
              (sample.client (Some sample.llm_up) (Some (sample.hears sample.quarter32)))
              sample.audio (sample.hears sample.quarter32) "hello"
              sample.quarter32 eq_refl) as [Hstream Hpost].
  - discriminate.
  - reflexivity.
  - split.
    + apply Hstream; [apply lookup_insert_eq | reflexivity | discriminate].
    + destruct (Hpost eq_refl) as [Hfst Htrace]. split; [exact Hfst|].
      rewrite Htrace. vm_compute. reflexivity.
Defined.

(** C9 with an LLM that refuses the connection. *)
Lemma generate_failure_falls_back_witness :
  let w := sample.start sample.config (Some sample.tts_up) (Some sample.llm_down)
             (Some (sample.hears sample.one32)) in
  Generate sample.llm_down "hello" = Err "connection refused" /\
  fst (agentmgr.ProcessIncomingAudio "s1" sample.audio w) = Ok "hello".
Proof.
  split; [reflexivity|].
  exact (proj1 (proj1 (generate_failure_falls_back
                         (sample.start sample.config (Some sample.tts_up)
                            (Some sample.llm_down) (Some (sample.hears sample.one32)))
                         "s1" sample.audio (sample.hears sample.one32) "hello"
                         sample.one32 sample.llm_down "connection refused"
                         eq_refl eq_refl) eq_refl eq_refl)).
Defined.


(** C3 (amended) after one [SpawnAgent], with a driver that serves every
    request. *)
Lemma StopAgent_ends_session_witness :
  let w := run_op (OpSpawnAgent "c1") (sample.start sample.config None None None) in
  reachable w /\
  agents (mgr w) !! "c1" = Some "000102030405060708090a0b" /\
  fst (agentmgr.StopAgent "c1" w) = Ok tt /\
  agents (mgr (snd (agentmgr.StopAgent "c1" w))) !! "c1" = None /\
  sess_status <$> sessions (db (snd (agentmgr.StopAgent "c1" w)))
                    !! "000102030405060708090a0b" = Some "ended".
Proof.
  assert (reachable (run_op (OpSpawnAgent "c1")
                       (sample.start sample.config None None None))) as Hr
    by (apply reach_step, reach_init).
  assert (agents (mgr (run_op (OpSpawnAgent "c1")
                         (sample.start sample.config None None None))) !! "c1" =
          Some "000102030405060708090a0b") as Ha by (vm_compute; reflexivity).
  split; [exact Hr|]. split; [exact Ha|].
  destruct (StopAgent_ends_session _ _ _ Hr Ha) as (Hok & Hnone & _ & _ & Hended & _).
  split; [exact Hok|]. split; [exact Hnone|].
  apply Hended. vm_compute. reflexivity.
Defined.

(** C7 on empty tables: [CreateCall] for alice succeeds and both rows are
    there. *)
Lemma CreateCall_atomic_witness :
  let w := sample.start sample.config None None None in
  let w' := snd (store.CreateCall "alice" w) in
  fst (store.CreateCall "alice" w) =
    Ok ("000102030405060708090a0b", "1112131415161718191a1b1c") /\
  exists now,
    calls (db w') !! "000102030405060708090a0b" = Some (CallRow "alice" "new" now) /\
    sessions (db w') !! "1112131415161718191a1b1c" =
      Some (SessionRow "000102030405060708090a0b" "alice" "caller" "new" now None).
Proof.
  destruct (CreateCall_atomic (sample.start sample.config None None None) "alice")
    as [Hok Hrows].
  assert (fst (store.CreateCall "alice" (sample.start sample.config None None None)) =
          Ok ("000102030405060708090a0b", "1112131415161718191a1b1c")) as H.
  { apply (Hok (fun i => byte_of_Z (Z.of_nat (17 * 0 + i)))
               (fun i => byte_of_Z (Z.of_nat (17 * 1 + i)))).
    - discriminate.
    - reflexivity.
    - reflexivity.
    - intros k. reflexivity.
    - apply lookup_empty.
    - apply lookup_empty. }
  split; [exact H|]. rewrite H in Hrows.
  destruct Hrows as (_ & now & _ & _ & Hc & Hs). exists now.
  rewrite Hc, Hs, !lookup_insert_eq. by split.
Defined.

(** C5 with no LiveKit URL. *)
Lemma SpawnAgent_token_failure_witness :
  let w := sample.start sample.config_no_url None None None in
  agentmgr.setting (VendorSettings (cfg (mgr w)) !! "livekit") "url" = "" /\
  agents (mgr (snd (agentmgr.SpawnAgent "c1" w))) !! "c1" = None.
Proof.
  assert (agentmgr.setting
            (VendorSettings (cfg (mgr (sample.start sample.config_no_url None None None)))
               !! "livekit") "url" = "") as Hu by (vm_compute; reflexivity).
  split; [exact Hu|].
  apply (SpawnAgent_token_failure _ "c1" (lookup_empty _) (or_introl Hu)).
Defined.

(** C6 on a request signed in hex and on a badly signed one. *)
Lemma webhook_answers_witness :
  let w := sample.start sample.config None None None in
  fst (server.webhook_livekit sample.signed_hex w) = http.MkResponse 204 "" /\
  http.StatusCode (fst (server.webhook_livekit sample.badly_signed w)) = 401.
Proof.
  assert (agentmgr.setting
            (VendorSettings (cfg (mgr (sample.start sample.config None None None)))
               !! "livekit") "api_secret" <> "") as Hs
    by (vm_compute; discriminate).
  split.
  - pose proof (proj2 (webhook_answers _ sample.signed_hex (bytes_of "{}")
                         eq_refl eq_refl Hs)) as H.
    assert (env_json (env (sample.start sample.config None None None)) (bytes_of "{}") =
            Ok (JObject ∅)) as E by (vm_compute; reflexivity).
    rewrite E in H. apply H. left. vm_compute. reflexivity.
  - apply (proj1 (webhook_answers _ sample.badly_signed (bytes_of "{}")
                    eq_refl eq_refl Hs)); vm_compute; discriminate.
Defined.

(** C10 after two spawns, a failed connect and a stop. *)
Lemma maps_stay_aligned_witness :
  let w := run [OpSpawnAgent "c1"; OpSpawnAgent "c2"; OpConnect 0; OpStopAgent "c2"]
             sample.start_offline in
  reachable w /\ dom (agents (mgr w)) = dom (clients (mgr w)).
Proof.
  assert (reachable (run [OpSpawnAgent "c1"; OpSpawnAgent "c2"; OpConnect 0;
                          OpStopAgent "c2"] sample.start_offline)) as Hr
    by (repeat apply reach_step; apply reach_init).
  split; [exact Hr|]. apply (maps_stay_aligned _ Hr).
Defined.
